(** * git-gen: the orchestration path of [pkg/gitgen/mod.go]

    A shallow embedding of the Go package [gitgen]: the two diff providers
    ([runDiffOnCli], [runDiffWithGoGit]), the instruction selector
    ([getPrompt]) and the orchestrator ([Do]).

    The package is glue around three collaborators that live outside the
    file: the [git] command line tool reached through [os/exec], the go-git
    library, and the [models] package with its language-model backends.
    Each collaborator is a field of a [World]; every call that leaves the
    process is recorded in a trace of [event]s, so that "which calls were
    made, in which order, with which arguments" is a property of the value
    a function returns. *)

From Stdlib Require Import String Ascii List ZArith Bool Lia DecimalString.
Import ListNotations.
Local Open Scope string_scope.
Local Open Scope list_scope.

Set Implicit Arguments.

(** ** Go values *)

(** Go's [error] values, as far as this package and its collaborators
    produce them.  [errors.New] sentinels are constructors of their own (Go
    compares them by identity); [fmt.Errorf] with a [%w] verb is [Wrapped],
    which keeps the formatted text and the error it wraps. *)
Inductive error : Type :=
| ErrUnknownPlatform                          (* gitgen: errors.New("unknown platform") *)
| Wrapped (text : string) (inner : error)     (* fmt.Errorf("... %w", inner) *)
| ExitError (code : Z)                        (* *exec.ExitError: non-zero exit *)
| ExecError (name : string)                   (* *exec.Error: executable not found *)
| ErrRepositoryNotExists                      (* git.ErrRepositoryNotExists *)
| ErrInvalidReferenceName                     (* plumbing.ErrInvalidReferenceName *)
| ErrReferenceNotFound                        (* plumbing.ErrReferenceNotFound *)
| ErrObjectNotFound                           (* plumbing.ErrObjectNotFound *)
| ErrMaxResolveRecursion                      (* storer.ErrMaxResolveRecursion *)
| OtherError (text : string).                 (* os, network and backend failures *)

(** [err.Error()]. *)
Definition Error (e : error) : string :=
  match e with
  | ErrUnknownPlatform => "unknown platform"
  | Wrapped text _ => text
  | ExitError code => "exit status " ++ NilZero.string_of_int (Z.to_int code)
  | ExecError name => "exec: " ++ name ++ ": executable file not found in $PATH"
  | ErrRepositoryNotExists => "repository does not exist"
  | ErrInvalidReferenceName => "invalid reference name"
  | ErrReferenceNotFound => "reference not found"
  | ErrObjectNotFound => "object not found"
  | ErrMaxResolveRecursion => "max. recursion level reached"
  | OtherError text => text
  end.

Definition error_eq_dec (a b : error) : {a = b} + {a <> b}.
Proof.
  decide equality; first [apply string_dec | apply Z.eq_dec].
Defined.

(** [errors.Is(e, target)]: [e] is [target] or wraps it, at any depth. *)
Fixpoint errors_Is (e target : error) : bool :=
  if error_eq_dec e target then true
  else match e with
       | Wrapped _ inner => errors_Is inner target
       | _ => false
       end.

(** [fmt.Errorf("unknown platform %s - %w", platform, err)]. *)
Definition Errorf_unknown_platform (platform : string) (err : error) : error :=
  Wrapped ("unknown platform " ++ platform ++ " - " ++ Error err) err.

(** A Go call returning [(T, error)] whose value is meaningless when the
    error is not nil. *)
Inductive result (A : Type) : Type :=
| Ok (a : A)
| Err (e : error).
Arguments Ok {A} a.
Arguments Err {A} e.

(** A Go call returning [(string, error)], both components kept: the
    functions of this package return the empty string beside an error, and
    that is part of what is specified. *)
Definition string_err : Type := (string * option error)%type.

(** The line feed. *)
Definition LF : string := String (ascii_of_nat 10) EmptyString.

(** Lookup in an association list keyed by strings: the first binding. *)
Fixpoint lookup {A : Type} (k : string) (l : list (string * A)) : option A :=
  match l with
  | [] => None
  | (k', a) :: l' => if String.eqb k k' then Some a else lookup k l'
  end.

(** ** [context] *)

Module context.

(** The contexts of Go's [context] package.  Only [Background] (and [TODO])
    have a nil [Done] channel: they are never cancelled and carry no
    deadline. *)
Inductive Context : Type :=
| Background
| TODO
| WithCancel (parent : Context)
| WithTimeout (parent : Context) (nanoseconds : Z)
| WithDeadline (parent : Context) (unix_nanoseconds : Z).

(** Whether somebody holding the context (or an ancestor of it) can make
    [ctx.Done()] fire: by a cancel function or by a deadline. *)
Definition cancellable (ctx : Context) : bool :=
  match ctx with
  | Background | TODO => false
  | WithCancel _ | WithTimeout _ _ | WithDeadline _ _ => true
  end.

End context.

(** ** [os/exec] *)

Module exec.

(** [exec.Cmd], the fields [exec.Command] fills in. *)
Record Cmd : Type := { Path : string; Args : list string }.

(** [exec.Command(name, arg...)]: builds the command, runs nothing. *)
Definition Command (name : string) (arg : list string) : Cmd :=
  {| Path := name; Args := name :: arg |}.

(** What [cmd.Run()] leaves behind: the bytes written to the [Stdout] and
    [Stderr] buffers, and the returned error. *)
Record Completed : Type :=
  { Stdout : string; Stderr : string; RunErr : option error }.

End exec.

(** ** [pkg/models] *)

Module models.

(** Modelled from the spec: [models.ModelConfig] is declared in the package
    [pkg/models]; the five fields are the ones [Do] fills in.  (The Go field
    [Model] is [Model_] here: the interface below has the name.) *)
Record ModelConfig : Type :=
  { PlatformApiKey : string;
    Platform : string;
    Model_ : string;
    PromptMaxTokens : Z;
    PromptRequestTimeoutSeconds : Z }.

(** Modelled from the spec: the value [ExecPrompt] returns; [Do] reads its
    [Content] field. *)
Record ModelResponse : Type := { Content : string }.

(** Modelled from the spec: the interface [models.Model], the capability
    [execute(systemInstruction, userContent) -> (content, error)] under a
    context.  A backend is the function its method computes. *)
Record Model : Type :=
  { ExecPrompt : context.Context -> string -> string -> result ModelResponse }.

End models.

(** ** go-git, as far as [runDiffWithGoGit] uses it *)

Module plumbing.

Definition Hash : Type := string.
Definition ZeroHash : Hash := "0000000000000000000000000000000000000000".

Definition ReferenceName : Type := string.
Definition HEAD : ReferenceName := "HEAD".

(** A reference is either a hash reference (a name and the hash it points
    to) or a symbolic reference (a name and the name it points to). *)
Inductive Reference : Type :=
| NewHashReference (n : ReferenceName) (h : Hash)
| NewSymbolicReference (n : ReferenceName) (target : ReferenceName).

(** [r.Name()]. *)
Definition Name (r : Reference) : ReferenceName :=
  match r with
  | NewHashReference n _ | NewSymbolicReference n _ => n
  end.

(** [r.Hash()] returns the hash field, which a symbolic reference leaves at
    its zero value. *)
Definition Hash_ (r : Reference) : Hash :=
  match r with
  | NewHashReference _ h => h
  | NewSymbolicReference _ _ => ZeroHash
  end.

End plumbing.

Module object.

(** A commit's file tree, flattened: file path and blob hash. *)
Definition Tree : Type := list (string * plumbing.Hash).

Record Commit : Type := { TreeHash : plumbing.Hash }.

Record ChangeEntry : Type := { Name : string; Blob : plumbing.Hash }.

(** A change has a side in the tree it comes from and a side in the tree it
    goes to; the absent side of an insertion or deletion is [None]. *)
Record Change : Type := { From : option ChangeEntry; To : option ChangeEntry }.
Definition Changes : Type := list Change.

Inductive Action : Type := Insert | Delete | Modify.

Definition Action_String (a : Action) : string :=
  match a with Insert => "Insert" | Delete => "Delete" | Modify => "Modify" end.

(** [c.Action()]: fails on a change with both sides empty. *)
Definition Change_Action (c : Change) : option Action :=
  match From c, To c with
  | None, None => None
  | None, Some _ => Some Insert
  | Some _, None => Some Delete
  | Some _, Some _ => Some Modify
  end.

(** [c.name()]: the name on the from side, unless that side is empty. *)
Definition Change_name (c : Change) : string :=
  match From c, To c with
  | Some e, _ => Name e
  | None, Some e => Name e
  | None, None => ""
  end.

(** [c.String()]. *)
Definition Change_String (c : Change) : string :=
  match Change_Action c with
  | None => "malformed change"
  | Some a => "<Action: " ++ Action_String a ++ ", Path: " ++ Change_name c ++ ">"
  end.

Fixpoint join (sep : string) (l : list string) : string :=
  match l with
  | [] => ""
  | [x] => x
  | x :: l' => x ++ sep ++ join sep l'
  end.

(** [Changes.String()]: the changes between brackets, comma separated. *)
Definition Changes_String (cs : Changes) : string :=
  "[" ++ join ", " (map Change_String cs) ++ "]".

(** The change at one path between two trees, if the trees differ there. *)
Definition change_at (from to : Tree) (path : string) : list Change :=
  match lookup path from, lookup path to with
  | Some x, Some y =>
      if String.eqb x y then []
      else [{| From := Some {| Name := path; Blob := x |};
               To := Some {| Name := path; Blob := y |} |}]
  | Some x, None => [{| From := Some {| Name := path; Blob := x |}; To := None |}]
  | None, Some y => [{| From := None; To := Some {| Name := path; Blob := y |} |}]
  | None, None => []
  end.

(** The paths of two trees: those of [from], then those only [to] has. *)
Definition tree_paths (from to : Tree) : list string :=
  map fst from ++
  filter (fun path => match lookup path from with None => true | Some _ => false end)
         (map fst to).

(** What the comparison of the two trees gives before renames are looked
    for: one change per path at which the trees differ. *)
Definition raw_changes (from to : Tree) : Changes :=
  flat_map (change_at from to) (tree_paths from to).

Definition is_insert (c : Change) : bool :=
  match From c, To c with None, Some _ => true | _, _ => false end.

Definition is_delete (c : Change) : bool :=
  match From c, To c with Some _, None => true | _, _ => false end.

Definition is_modify (c : Change) : bool :=
  match From c, To c with Some _, Some _ => true | _, _ => false end.

(** The first insertion of the given blob, taken out of the list. *)
Fixpoint take_insert (blob : plumbing.Hash) (inserted : Changes)
  : option (Change * Changes) :=
  match inserted with
  | [] => None
  | c :: rest =>
      match To c with
      | Some e =>
          if String.eqb (Blob e) blob then Some (c, rest)
          else match take_insert blob rest with
               | Some (found, rest') => Some (found, c :: rest')
               | None => None
               end
      | None =>
          match take_insert blob rest with
          | Some (found, rest') => Some (found, c :: rest')
          | None => None
          end
      end
  end.

(** Exact renames: a deletion and an insertion of the same blob become one
    change from the deleted entry to the inserted one.  (Among several
    files with the same blob the library chooses partners by their names;
    here the first insertion is taken.) *)
Fixpoint pair_renames (deleted inserted : Changes) : Changes :=
  match deleted with
  | [] => inserted
  | d :: deleted' =>
      match From d with
      | Some e =>
          match take_insert (Blob e) inserted with
          | Some (i, inserted') =>
              {| From := From d; To := To i |} :: pair_renames deleted' inserted'
          | None => d :: pair_renames deleted' inserted
          end
      | None => d :: pair_renames deleted' inserted
      end
  end.

(** [DetectRenames] on the raw changes, as far as a tree of blob hashes
    decides it. *)
Definition detect_renames (cs : Changes) : Changes :=
  filter is_modify cs ++ pair_renames (filter is_delete cs) (filter is_insert cs).

Fixpoint insert_by_name (c : Change) (sorted : Changes) : Changes :=
  match sorted with
  | [] => [c]
  | x :: sorted' =>
      if String.leb (Change_name c) (Change_name x) then c :: sorted
      else x :: insert_by_name c sorted'
  end.

(** [sort.Stable] on [Changes]: by the name each change prints. *)
Definition sort_by_name (cs : Changes) : Changes := fold_right insert_by_name [] cs.

(** The changes [from.Diff(to)] lists: the raw changes, exact renames
    paired, in the order of their names.  Two things the library does are
    outside a tree of blob hashes and are left out: it also pairs a
    deletion with an insertion whose content is similar (not equal), and it
    reports a change of file mode; the trees here hold regular files, and a
    renamed file whose content has changed stays a deletion and an
    insertion. *)
Definition tree_changes (from to : Tree) : Changes :=
  sort_by_name (detect_renames (raw_changes from to)).

(** [from.Diff(to)]. *)
Definition Tree_Diff (from to : Tree) : result Changes :=
  Ok (tree_changes from to).

End object.

Module git.

Record PlainOpenOptions : Type := { DetectDotGit : bool }.

(** An opened repository: the reference storage and the object storage
    (commits by hash, trees by hash). *)
Record Repository : Type :=
  { Storer : list plumbing.Reference;
    commits : list (plumbing.Hash * object.Commit);
    trees : list (plumbing.Hash * object.Tree) }.

(** [repo.Storer.Reference(name)]: the reference as it is stored; a symbolic
    reference is returned as such. *)
Definition Storer_Reference (repo : Repository) (name : plumbing.ReferenceName)
  : result plumbing.Reference :=
  match find (fun r => String.eqb (plumbing.Name r) name) (Storer repo) with
  | Some r => Ok r
  | None => Err ErrReferenceNotFound
  end.

Definition MaxResolveRecursion : nat := 1024.

(** [storer.resolveReference]: follows symbolic references; [budget] is the
    number of hops left before [ErrMaxResolveRecursion]. *)
Fixpoint resolveReference (repo : Repository) (r : plumbing.Reference) (budget : nat)
  : result plumbing.Reference :=
  match r with
  | plumbing.NewHashReference _ _ => Ok r
  | plumbing.NewSymbolicReference _ target =>
      match budget with
      | O => Err ErrMaxResolveRecursion
      | S budget' =>
          match Storer_Reference repo target with
          | Err e => Err e
          | Ok t => resolveReference repo t budget'
          end
      end
  end.

(** [storer.ResolveReference(repo.Storer, name)]. *)
Definition ResolveReference (repo : Repository) (name : plumbing.ReferenceName)
  : result plumbing.Reference :=
  match Storer_Reference repo name with
  | Err e => Err e
  | Ok r => resolveReference repo r (S MaxResolveRecursion)
  end.

(** [repo.Reference(name, resolved)]. *)
Definition Reference (repo : Repository) (name : plumbing.ReferenceName) (resolved : bool)
  : result plumbing.Reference :=
  if resolved then ResolveReference repo name else Storer_Reference repo name.

(** [repo.CommitObject(h)]. *)
Definition CommitObject (repo : Repository) (h : plumbing.Hash) : result object.Commit :=
  match lookup h (commits repo) with
  | Some c => Ok c
  | None => Err ErrObjectNotFound
  end.

(** [commit.Tree()]. *)
Definition Commit_Tree (repo : Repository) (c : object.Commit) : result object.Tree :=
  match lookup (object.TreeHash c) (trees repo) with
  | Some t => Ok t
  | None => Err ErrObjectNotFound
  end.

End git.

(** ** Effects *)

(** The calls that leave the process, in the order they are made. *)
Inductive event : Type :=
| EvRun (cmd : exec.Cmd)                       (* cmd.Run() *)
| EvPrintln (line : string)                    (* fmt.Println(line) *)
| EvGetwd                                      (* os.Getwd() *)
| EvPlainOpen (path : string) (o : git.PlainOpenOptions)
                                               (* git.PlainOpenWithOptions(path, o) *)
| EvReference (name : plumbing.ReferenceName) (resolved : bool)
                                               (* repo.Reference(name, resolved) *)
| EvStorerReference (name : plumbing.ReferenceName)
                                               (* repo.Storer.Reference(name) *)
| EvCommitObject (h : plumbing.Hash)           (* repo.CommitObject(h) *)
| EvTree (c : object.Commit)                   (* commit.Tree() *)
| EvDiff (from to : object.Tree)               (* from.Diff(to) *)
| EvNewOpenAi (c : models.ModelConfig)         (* models.NewOpenAi(c) *)
| EvNewOllamaAi (c : models.ModelConfig)       (* models.NewOllamaAi(c) *)
| EvExecPrompt (ctx : context.Context) (systemPrompt userPrompt : string).
                                               (* runtime.ExecPrompt(ctx, ...) *)

(** What the collaborators answer.  One invocation of the package makes each
    call at most once, so an answer is a function of the call's arguments.
    [refname_Validate] is [plumbing.ReferenceName.Validate]: nil, or the
    reason a name is refused.  Modelled from the spec: the two backend
    constructors; the one of the hosted API never fails, the one of the
    local server may. *)
Record World : Type :=
  { cmd_Run : exec.Cmd -> exec.Completed;
    os_Getwd : result string;
    git_PlainOpenWithOptions : string -> git.PlainOpenOptions -> result git.Repository;
    refname_Validate : plumbing.ReferenceName -> option error;
    models_NewOpenAi : models.ModelConfig -> models.Model;
    models_NewOllamaAi : models.ModelConfig -> result models.Model }.

(** A computation with effects: its value and the trace of its calls. *)
Definition IO (A : Type) : Type := (A * list event)%type.

(** A function body that has not returned yet yields [inl]; a body that has
    executed a [return] statement yields [inr] with the returned value, and
    the statements after it are skipped. *)
Definition Body (R A : Type) : Type := IO (A + R).

Definition Return {R A : Type} (r : R) : Body R A := (inr r, []).

Definition bind {R A B : Type} (m : Body R A) (k : A -> Body R B) : Body R B :=
  match m with
  | (inl a, t1) => let (b, t2) := k a in (b, t1 ++ t2)
  | (inr r, t1) => (inr r, t1)
  end.

(** Calling a function from a body. *)
Definition call {R A : Type} (m : IO A) : Body R A := (inl (fst m), snd m).

(** [v, err := f(...); if err != nil { return on_err(err) }]. *)
Definition check {R A : Type} (m : IO (result A)) (on_err : error -> R) : Body R A :=
  match m with
  | (Ok a, t) => (inl a, t)
  | (Err e, t) => (inr (on_err e), t)
  end.

(** A whole function: every path through a Go body ends in a [return]. *)
Definition func {R : Type} (b : Body R R) : IO R :=
  match b with
  | (inl r, t) | (inr r, t) => (r, t)
  end.

Declare Scope body_scope.
Delimit Scope body_scope with body.
Notation "x <- m ;; k" := (bind m (fun x => k))
  (at level 61, m at next level, right associativity) : body_scope.
Notation "m ;; k" := (bind m (fun _ => k))
  (at level 61, right associativity) : body_scope.
Local Open Scope body_scope.

(** A method of an opened repository or of one of its objects: the call
    reads the repository's storage, which is the event [e]; what it finds
    there is what [PlainOpenWithOptions] has handed over. *)
Definition method {A : Type} (e : event) (r : result A) : IO (result A) := (r, [e]).

Definition Println (line : string) : IO unit := (tt, [EvPrintln line]).

Definition Run (w : World) (cmd : exec.Cmd) : IO exec.Completed :=
  (cmd_Run w cmd, [EvRun cmd]).

Definition Getwd (w : World) : IO (result string) := (os_Getwd w, [EvGetwd]).

Definition PlainOpenWithOptions (w : World) (path : string) (o : git.PlainOpenOptions)
  : IO (result git.Repository) :=
  (git_PlainOpenWithOptions w path o, [EvPlainOpen path o]).

(** Modelled from the spec: [models.NewOpenAi] builds the hosted-API
    backend; it returns no error. *)
Definition NewOpenAi (w : World) (c : models.ModelConfig) : IO models.Model :=
  (models_NewOpenAi w c, [EvNewOpenAi c]).

(** Modelled from the spec: [models.NewOllamaAi] builds the local-server
    backend, or fails. *)
Definition NewOllamaAi (w : World) (c : models.ModelConfig) : IO (result models.Model) :=
  (models_NewOllamaAi w c, [EvNewOllamaAi c]).

(** Modelled from the spec: the call [runtime.ExecPrompt(ctx, system, user)]
    of the capability contract. *)
Definition ExecPrompt (runtime : models.Model) (ctx : context.Context)
  (systemPrompt userPrompt : string) : IO (result models.ModelResponse) :=
  (models.ExecPrompt runtime ctx systemPrompt userPrompt,
   [EvExecPrompt ctx systemPrompt userPrompt]).

(** ** The package [gitgen] *)

(** Modelled from the spec: [gitgen.Config] is declared in another file of
    the package; its fields are those of the spec's Configuration. *)
Record Config : Type :=
  { SourceRef : string;
    DestinationRef : string;
    PlatformApiKey : string;
    Platform : string;
    Model : string;
    PromptMaxTokens : Z;
    PromptRequestTimeoutSeconds : Z }.

(** [type PromptType int] with its three [iota] constants. *)
Definition PromptType : Type := Z.
Definition PromptCommitMessage : PromptType := 0%Z.
Definition PromptCodeReview : PromptType := 1%Z.
Definition PromptTestCase : PromptType := 2%Z.

Section gitgen.

Variable w : World.

Definition runDiffOnCli (config : Config) : IO string_err :=
  func (
    (* Define the Git command *)
    let cmd := exec.Command "git" ["diff"; SourceRef config; DestinationRef config] in
    let cmd :=
      if String.eqb (DestinationRef config) ""
      then exec.Command "git" ["diff"; SourceRef config]
      else cmd in
    (* Run the command; its output lands in the two buffers *)
    done <- call (Run w cmd) ;;
    match exec.RunErr done with
    | Some err => Return ("", Some err)
    | None =>
        (* Convert the output to a string *)
        Return (exec.Stdout done, None)
    end).

Definition runDiffWithGoGit (config : Config) : IO string_err :=
  func (
    workingDir <- check (Getwd w) (fun err => ("", Some err)) ;;
    repo <- check (PlainOpenWithOptions w workingDir {| git.DetectDotGit := true |})
                  (fun err => ("", Some err)) ;;
    let srcRefName : plumbing.ReferenceName := SourceRef config in
    match refname_Validate w srcRefName with
    | Some err => Return ("", Some err)
    | None =>
    srcRef <- check (method (EvReference srcRefName true)
                            (git.Reference repo srcRefName true))
                    (fun err => ("", Some err)) ;;
    srcCommit <- check (method (EvCommitObject (plumbing.Hash_ srcRef))
                               (git.CommitObject repo (plumbing.Hash_ srcRef)))
                       (fun err => ("", Some err)) ;;
    srcTree <- check (method (EvTree srcCommit) (git.Commit_Tree repo srcCommit))
                     (fun err => ("", Some err)) ;;
    destRef <-
      (if negb (String.eqb (DestinationRef config) "")
       then
         let destRefName : plumbing.ReferenceName := DestinationRef config in
         match refname_Validate w destRefName with
         | Some err => Return ("", Some err)
         | None => check (method (EvReference destRefName true)
                                 (git.Reference repo destRefName true))
                         (fun err => ("", Some err))
         end
       else
         check (method (EvStorerReference plumbing.HEAD)
                       (git.Storer_Reference repo plumbing.HEAD))
               (fun err => ("", Some err))) ;;
    destCommit <- check (method (EvCommitObject (plumbing.Hash_ destRef))
                                (git.CommitObject repo (plumbing.Hash_ destRef)))
                        (fun err => ("", Some err)) ;;
    destTree <- check (method (EvTree destCommit) (git.Commit_Tree repo destCommit))
                      (fun err => ("", Some err)) ;;
    patch <- check (method (EvDiff destTree srcTree) (object.Tree_Diff destTree srcTree))
                   (fun err => ("", Some err)) ;;
    Return (object.Changes_String patch, None)
    end).

Definition getPrompt (promptType : PromptType) : string :=
  let prompt := "" in
  if Z.eqb promptType PromptCommitMessage then
    "please generate a git commit message with a simple explanation from the changes stated above which is an output of a git diff command. all response of this message should be wrapped in a markdown format because it will be shared in a text-only terminal interface."
  else if Z.eqb promptType PromptCodeReview then
    "please perform a efficient and concise code review which points out crucial improvements could be changed on the target code. the target code is stated above which is an output of a git diff command. all response of this message should be wrapped in a markdown format because it will be shared in a text-only terminal interface."
  else if Z.eqb promptType PromptTestCase then
    "Please generate detailed test cases from the changes stated above, which is an output of a git diff command. The test cases should be comprehensive and cover all the modifications, additions, and deletions in the code. All responses to this message should be wrapped in a markdown format because it will be shared in a text-only terminal interface. Ensure that the test cases include the following details" ++ LF ++ "- Description," ++ LF ++ "- Steps, Detailed steps to execute the test case. " ++ LF ++ "- Expected Result, The expected outcome of the test case." ++ LF ++ "- Actual Result, (This will be filled out during testing.)"
  else prompt.

Definition Do (promptType : PromptType) (config : Config) : IO string_err :=
  func (
    (* Run the git diff command *)
    diff <- call (runDiffOnCli config) ;;
    let '(userPrompt, err) := diff in
    match err with
    | Some err => Return ("", Some err)
    | None =>
    let systemPrompt := getPrompt promptType in
    call (Println "System Prompt:") ;;
    call (Println systemPrompt) ;;
    call (Println "User Prompt:") ;;
    call (Println userPrompt) ;;
    let modelConfig :=
      {| models.PlatformApiKey := PlatformApiKey config;
         models.Platform := Platform config;
         models.Model_ := Model config;
         models.PromptMaxTokens := PromptMaxTokens config;
         models.PromptRequestTimeoutSeconds := PromptRequestTimeoutSeconds config |} in
    runtime <-
      (if String.eqb (models.Platform modelConfig) "openai" then
         call (NewOpenAi w modelConfig)
       else if String.eqb (models.Platform modelConfig) "ollama" then
         check (NewOllamaAi w modelConfig) (fun err => ("", Some err))
       else
         Return ("", Some (Errorf_unknown_platform (models.Platform modelConfig)
                             ErrUnknownPlatform))) ;;
    response <- check (ExecPrompt runtime context.Background systemPrompt userPrompt)
                      (fun err => ("", Some err)) ;;
    call (Println "Model Response:") ;;
    Return (models.Content response, None)
    end).

End gitgen.

(** ** A checked-out repository, seen by the tool and by the library *)

(** What stands in for the [git] tool in the scenarios: the forms of
    [git diff] the scenarios run, on the repository the library reads. *)
Module cli.

(** The reference names [git] tries for a revision [n], in its order. *)
Definition candidates (n : string) : list plumbing.ReferenceName :=
  [n; ("refs/" ++ n)%string; ("refs/tags/" ++ n)%string; ("refs/heads/" ++ n)%string;
   ("refs/remotes/" ++ n)%string].

(** The first candidate that resolves.  Other ways to name a revision
    (object names in hex, [rev~n], [a..b]) are not among the forms the
    scenarios run. *)
Fixpoint first_resolved (repo : git.Repository) (names : list plumbing.ReferenceName)
  : option plumbing.Reference :=
  match names with
  | [] => None
  | n :: names' =>
      match git.ResolveReference repo n with
      | Ok r => Some r
      | Err _ => first_resolved repo names'
      end
  end.

(** The file tree of the commit a revision names. *)
Definition rev_tree (repo : git.Repository) (rev : string) : option object.Tree :=
  match first_resolved repo (candidates rev) with
  | None => None
  | Some r =>
      match git.CommitObject repo (plumbing.Hash_ r) with
      | Err _ => None
      | Ok c =>
          match git.Commit_Tree repo c with
          | Err _ => None
          | Ok t => Some t
          end
      end
  end.

(** What [git diff] prints for one changed file.  For a file renamed with
    its content unchanged this is all the tool prints; for a file whose
    content has changed the tool goes on with the hunks, which need the
    contents of the two blobs and are left out. *)
Definition file_header (c : object.Change) : string :=
  match object.From c, object.To c with
  | Some f, Some t =>
      if String.eqb (object.Name f) (object.Name t) then
        "diff --git a/" ++ object.Name f ++ " b/" ++ object.Name t ++ LF ++
        "index " ++ object.Blob f ++ ".." ++ object.Blob t ++ " 100644" ++ LF ++
        "--- a/" ++ object.Name f ++ LF ++
        "+++ b/" ++ object.Name t ++ LF
      else
        "diff --git a/" ++ object.Name f ++ " b/" ++ object.Name t ++ LF ++
        "similarity index 100%" ++ LF ++
        "rename from " ++ object.Name f ++ LF ++
        "rename to " ++ object.Name t ++ LF
  | Some f, None =>
      "diff --git a/" ++ object.Name f ++ " b/" ++ object.Name f ++ LF ++
      "deleted file mode 100644" ++ LF ++
      "index " ++ object.Blob f ++ "..0000000" ++ LF ++
      "--- a/" ++ object.Name f ++ LF ++
      "+++ /dev/null" ++ LF
  | None, Some t =>
      "diff --git a/" ++ object.Name t ++ " b/" ++ object.Name t ++ LF ++
      "new file mode 100644" ++ LF ++
      "index 0000000.." ++ object.Blob t ++ LF ++
      "--- /dev/null" ++ LF ++
      "+++ b/" ++ object.Name t ++ LF
  | None, None => ""
  end.

Definition unified (cs : object.Changes) : string :=
  String.concat "" (map file_header cs).

Definition exit_ok (out : string) : exec.Completed :=
  {| exec.Stdout := out; exec.Stderr := ""; exec.RunErr := None |}.

(** A revision the tool cannot resolve: exit status 128. *)
Definition exit_fatal (msg : string) : exec.Completed :=
  {| exec.Stdout := ""; exec.Stderr := "fatal: " ++ msg ++ LF;
     exec.RunErr := Some (ExitError 128) |}.

(** A command line the tool does not accept: exit status 129. *)
Definition exit_usage (msg : string) : exec.Completed :=
  {| exec.Stdout := ""; exec.Stderr := "usage: " ++ msg ++ LF;
     exec.RunErr := Some (ExitError 129) |}.

Definition unknown_revision (rev : string) : string :=
  "ambiguous argument '" ++ rev ++ "': unknown revision or path not in the working tree.".

(** [git diff --cached] compares the head commit with the index;
    [git diff <a>] compares the tree of a commit with the working tree;
    [git diff <a> <b>] compares the trees of two commits. *)
Definition git_diff (repo : git.Repository) (index worktree : object.Tree)
  (args : list string) : exec.Completed :=
  match args with
  | [a] =>
      if String.eqb a "--cached" then
        match rev_tree repo plumbing.HEAD with
        | Some th => exit_ok (unified (object.tree_changes th index))
        | None => exit_fatal (unknown_revision plumbing.HEAD)
        end
      else
        match rev_tree repo a with
        | Some ta => exit_ok (unified (object.tree_changes ta worktree))
        | None => exit_fatal (unknown_revision a)
        end
  | [a; b] =>
      match rev_tree repo a, rev_tree repo b with
      | Some ta, Some tb => exit_ok (unified (object.tree_changes ta tb))
      | None, _ => exit_fatal (unknown_revision a)
      | _, None => exit_fatal (unknown_revision b)
      end
  | _ => exit_usage "git diff [<options>] [<commit>] [--] [<path>...]"
  end.

(** Running a command in a working directory that is a checkout of [repo]. *)
Definition run (repo : git.Repository) (index worktree : object.Tree) (cmd : exec.Cmd)
  : exec.Completed :=
  match exec.Args cmd with
  | "git" :: "diff" :: args =>
      if String.eqb (exec.Path cmd) "git" then git_diff repo index worktree args
      else {| exec.Stdout := ""; exec.Stderr := "";
              exec.RunErr := Some (ExecError (exec.Path cmd)) |}
  | _ => {| exec.Stdout := ""; exec.Stderr := "";
            exec.RunErr := Some (ExecError (exec.Path cmd)) |}
  end.

End cli.

(** The world of a process whose working directory [dir] is the root of a
    checkout: the tool and the library read the same repository; [index]
    holds what is staged and [worktree] the tracked files as they are on
    disk. *)
Definition checkout (dir : string) (repo : git.Repository) (index worktree : object.Tree)
  (validate : plumbing.ReferenceName -> option error)
  (openai : models.ModelConfig -> models.Model)
  (ollama : models.ModelConfig -> result models.Model) : World :=
  {| cmd_Run := cli.run repo index worktree;
     os_Getwd := Ok dir;
     git_PlainOpenWithOptions := fun path _ =>
       if String.eqb path dir then Ok repo else Err ErrRepositoryNotExists;
     refname_Validate := validate;
     models_NewOpenAi := openai;
     models_NewOllamaAi := ollama |}.

(** Whether [needle] occurs in [text]. *)
Fixpoint occurs (needle text : string) : bool :=
  String.prefix needle text ||
  match text with
  | EmptyString => false
  | String _ text' => occurs needle text'
  end.

(** ** Scenarios *)

Module scenario.

Definition X : plumbing.Hash := "1111111111111111111111111111111111111111".
Definition Y : plumbing.Hash := "2222222222222222222222222222222222222222".

Definition treeX : object.Tree := [("README.md", "8ab686e"); ("main.go", "e69de29")].
Definition treeY : object.Tree :=
  [("README.md", "8ab686e"); ("main.go", "d00491f"); ("util.go", "0cfbf08")].

Definition objects_commits : list (plumbing.Hash * object.Commit) :=
  [(X, {| object.TreeHash := "aaaa" |}); (Y, {| object.TreeHash := "bbbb" |})].
Definition objects_trees : list (plumbing.Hash * object.Tree) :=
  [("aaaa", treeX); ("bbbb", treeY)].

(** The usual state: [HEAD] is a symbolic reference to the branch that is
    checked out, here [main] at commit [X]; [feature] is at commit [Y]. *)
Definition repo_on_branch : git.Repository :=
  {| git.Storer := [plumbing.NewSymbolicReference "HEAD" "refs/heads/main";
                    plumbing.NewHashReference "refs/heads/main" X;
                    plumbing.NewHashReference "refs/heads/feature" Y];
     git.commits := objects_commits;
     git.trees := objects_trees |}.

(** A detached head: [HEAD] stores the hash of commit [X] itself. *)
Definition repo_detached : git.Repository :=
  {| git.Storer := [plumbing.NewHashReference "HEAD" X;
                    plumbing.NewHashReference "refs/heads/main" X;
                    plumbing.NewHashReference "refs/heads/feature" Y];
     git.commits := objects_commits;
     git.trees := objects_trees |}.

(** A working tree with an edit to [main.go] that is not committed. *)
Definition worktree_dirty : object.Tree :=
  [("README.md", "8ab686e"); ("main.go", "5716ca5")].

(** What the scenarios take for a well-formed reference name: [HEAD], or a
    name under [refs/]. *)
Definition validate (n : plumbing.ReferenceName) : option error :=
  if String.eqb n "HEAD" || String.prefix "refs/" n then None
  else Some ErrInvalidReferenceName.

(** A backend that answers every prompt with the same text. *)
Definition answering (text : string) : models.Model :=
  {| models.ExecPrompt := fun _ _ _ => Ok {| models.Content := text |} |}.

(** A backend whose every call fails. *)
Definition failing (e : error) : models.Model :=
  {| models.ExecPrompt := fun _ _ _ => Err e |}.

(** In the scenarios nothing is staged: the index is the tree of the head
    commit, [X]. *)
Definition on_branch (worktree : object.Tree) : World :=
  checkout "/work" repo_on_branch treeX worktree validate
    (fun _ => answering "feat: add util") (fun _ => Ok (answering "feat: add util")).

Definition detached (worktree : object.Tree) : World :=
  checkout "/work" repo_detached treeX worktree validate
    (fun _ => answering "feat: add util") (fun _ => Ok (answering "feat: add util")).

(** A working directory that is not inside a repository: there [git diff]
    takes its arguments for two paths to compare and refuses a single one. *)
Definition outside_repository : World :=
  {| cmd_Run := fun _ => cli.exit_usage "git diff --no-index [<options>] <path> <path>";
     os_Getwd := Ok "/tmp";
     git_PlainOpenWithOptions := fun _ _ => Err ErrRepositoryNotExists;
     refname_Validate := validate;
     models_NewOpenAi := fun _ => answering "unreachable";
     models_NewOllamaAi := fun _ => Ok (answering "unreachable") |}.

(** The local server is down; the hosted API refuses the key. *)
Definition backends_down : World :=
  checkout "/work" repo_on_branch treeX treeX validate
    (fun _ => failing (OtherError "401 Unauthorized"))
    (fun _ => Err (OtherError "connection refused")).

(** The head moved to commit [Y] (detached), the index and the working tree
    left as they were. *)
Definition repo_detached_at_Y : git.Repository :=
  {| git.Storer := [plumbing.NewHashReference "HEAD" Y;
                    plumbing.NewHashReference "refs/heads/main" X;
                    plumbing.NewHashReference "refs/heads/feature" Y];
     git.commits := objects_commits;
     git.trees := objects_trees |}.

Definition detached_at_Y (worktree : object.Tree) : World :=
  checkout "/work" repo_detached_at_Y treeX worktree validate
    (fun _ => answering "feat: add util") (fun _ => Ok (answering "feat: add util")).

(** A repository in which the one commit of [topic] renames [a.txt], which
    [main] has, to [b.txt], its content unchanged. *)
Definition tree_before : object.Tree := [("README.md", "8ab686e"); ("a.txt", "d00491f")].
Definition tree_after : object.Tree := [("README.md", "8ab686e"); ("b.txt", "d00491f")].

Definition repo_renamed : git.Repository :=
  {| git.Storer := [plumbing.NewSymbolicReference "HEAD" "refs/heads/main";
                    plumbing.NewHashReference "refs/heads/main" X;
                    plumbing.NewHashReference "refs/heads/topic" Y];
     git.commits := objects_commits;
     git.trees := [("aaaa", tree_before); ("bbbb", tree_after)] |}.

Definition renamed : World :=
  checkout "/work" repo_renamed tree_before tree_before validate
    (fun _ => answering "refactor: rename a.txt") (fun _ => Ok (answering "refactor: rename a.txt")).

Definition config (src dst platform : string) : Config :=
  {| SourceRef := src; DestinationRef := dst;
     PlatformApiKey := "sk-test"; Platform := platform; Model := "gpt-4o";
     PromptMaxTokens := 3500; PromptRequestTimeoutSeconds := 60 |}.

End scenario.

(** ** Vocabulary of the statements *)

(** The command [runDiffOnCli] ends up running. *)
Definition diffCommand (config : Config) : exec.Cmd :=
  if String.eqb (DestinationRef config) ""
  then exec.Command "git" ["diff"; SourceRef config]
  else exec.Command "git" ["diff"; SourceRef config; DestinationRef config].

(** The [models.ModelConfig] that [Do] builds from its configuration. *)
Definition modelConfigOf (config : Config) : models.ModelConfig :=
  {| models.PlatformApiKey := PlatformApiKey config;
     models.Platform := Platform config;
     models.Model_ := Model config;
     models.PromptMaxTokens := PromptMaxTokens config;
     models.PromptRequestTimeoutSeconds := PromptRequestTimeoutSeconds config |}.

(** The four diagnostic lines [Do] prints once it has the diff. *)
Definition diagnostics (systemPrompt userPrompt : string) : list event :=
  [EvPrintln "System Prompt:"; EvPrintln systemPrompt;
   EvPrintln "User Prompt:"; EvPrintln userPrompt].

(** The events that reach a language-model backend. *)
Definition backend_event (e : event) : bool :=
  match e with
  | EvNewOpenAi _ | EvNewOllamaAi _ | EvExecPrompt _ _ _ => true
  | _ => false
  end.

(** The reads of an opened repository. *)
Definition repository_read (e : event) : bool :=
  match e with
  | EvReference _ _ | EvStorerReference _ | EvCommitObject _ | EvTree _ | EvDiff _ _ => true
  | _ => false
  end.

(** The events only the go-git variant produces. *)
Definition gogit_event (e : event) : bool :=
  match e with
  | EvGetwd | EvPlainOpen _ _ => true
  | _ => repository_read e
  end.

Definition is_run (e : event) : bool :=
  match e with EvRun _ => true | _ => false end.

(** [Do]'s platform switch has produced [runtime], by the call [construction]. *)
Definition constructed_by (w : World) (config : Config) (runtime : models.Model)
  (construction : event) : Prop :=
  (Platform config = "openai" /\
   models_NewOpenAi w (modelConfigOf config) = runtime /\
   construction = EvNewOpenAi (modelConfigOf config)) \/
  (Platform config = "ollama" /\
   models_NewOllamaAi w (modelConfigOf config) = Ok runtime /\
   construction = EvNewOllamaAi (modelConfigOf config)).

(** [Do]'s platform switch has produced [runtime]. *)
Definition constructed (w : World) (config : Config) (runtime : models.Model) : Prop :=
  exists construction, constructed_by w config runtime construction.

(** The runs of [Do]: the five ways through its body, each with the result
    and the trace it leaves. *)
Inductive Do_run (w : World) (promptType : PromptType) (config : Config)
  : IO string_err -> Prop :=
| run_diff_failed (err : error) :
    exec.RunErr (cmd_Run w (diffCommand config)) = Some err ->
    Do_run w promptType config (("", Some err), [EvRun (diffCommand config)])
| run_unknown_platform :
    exec.RunErr (cmd_Run w (diffCommand config)) = None ->
    Platform config <> "openai" -> Platform config <> "ollama" ->
    Do_run w promptType config
      (("", Some (Errorf_unknown_platform (Platform config) ErrUnknownPlatform)),
       EvRun (diffCommand config) ::
       diagnostics (getPrompt promptType) (exec.Stdout (cmd_Run w (diffCommand config))))
| run_construction_failed (err : error) :
    exec.RunErr (cmd_Run w (diffCommand config)) = None ->
    Platform config = "ollama" ->
    models_NewOllamaAi w (modelConfigOf config) = Err err ->
    Do_run w promptType config
      (("", Some err),
       EvRun (diffCommand config) ::
       diagnostics (getPrompt promptType) (exec.Stdout (cmd_Run w (diffCommand config))) ++
       [EvNewOllamaAi (modelConfigOf config)])
| run_exec_failed (runtime : models.Model) (construction : event) (err : error) :
    exec.RunErr (cmd_Run w (diffCommand config)) = None ->
    constructed_by w config runtime construction ->
    models.ExecPrompt runtime context.Background (getPrompt promptType)
      (exec.Stdout (cmd_Run w (diffCommand config))) = Err err ->
    Do_run w promptType config
      (("", Some err),
       EvRun (diffCommand config) ::
       diagnostics (getPrompt promptType) (exec.Stdout (cmd_Run w (diffCommand config))) ++
       [construction;
        EvExecPrompt context.Background (getPrompt promptType)
          (exec.Stdout (cmd_Run w (diffCommand config)))])
| run_answered (runtime : models.Model) (construction : event)
    (response : models.ModelResponse) :
    exec.RunErr (cmd_Run w (diffCommand config)) = None ->
    constructed_by w config runtime construction ->
    models.ExecPrompt runtime context.Background (getPrompt promptType)
      (exec.Stdout (cmd_Run w (diffCommand config))) = Ok response ->
    Do_run w promptType config
      ((models.Content response, None),
       EvRun (diffCommand config) ::
       diagnostics (getPrompt promptType) (exec.Stdout (cmd_Run w (diffCommand config))) ++
       [construction;
        EvExecPrompt context.Background (getPrompt promptType)
          (exec.Stdout (cmd_Run w (diffCommand config)));
        EvPrintln "Model Response:"]).

(** The reference [runDiffWithGoGit] takes for the destination side. *)
Definition destination_reference (w : World) (repo : git.Repository) (config : Config)
  (destRef : plumbing.Reference) : Prop :=
  if String.eqb (DestinationRef config) ""
  then git.Storer_Reference repo plumbing.HEAD = Ok destRef
  else refname_Validate w (DestinationRef config) = None /\
       git.Reference repo (DestinationRef config) true = Ok destRef.

(** The steps of a run of [runDiffWithGoGit] that meets no error. *)
Inductive gogit_run (w : World) (config : Config)
  (repo : git.Repository) (srcTree destTree : object.Tree) : Prop :=
| gogit_steps (dir : string)
    (srcRef : plumbing.Reference) (srcCommit : object.Commit)
    (destRef : plumbing.Reference) (destCommit : object.Commit)
    (run_getwd : os_Getwd w = Ok dir)
    (run_open : git_PlainOpenWithOptions w dir {| git.DetectDotGit := true |} = Ok repo)
    (run_src_valid : refname_Validate w (SourceRef config) = None)
    (run_src_ref : git.Reference repo (SourceRef config) true = Ok srcRef)
    (run_src_commit : git.CommitObject repo (plumbing.Hash_ srcRef) = Ok srcCommit)
    (run_src_tree : git.Commit_Tree repo srcCommit = Ok srcTree)
    (run_dest_ref : destination_reference w repo config destRef)
    (run_dest_commit : git.CommitObject repo (plumbing.Hash_ destRef) = Ok destCommit)
    (run_dest_tree : git.Commit_Tree repo destCommit = Ok destTree).

(** One step of a body: the monad's plumbing reduced, the library's
    functions left as they are. *)
Ltac body_step :=
  cbn -[git.Reference git.Storer_Reference git.CommitObject git.Commit_Tree
        object.tree_changes object.Changes_String String.eqb].

(** The lines a trace prints, in order. *)
Definition printed_lines (t : list event) : list string :=
  flat_map (fun e => match e with EvPrintln line => [line] | _ => [] end) t.

Definition is_construction (e : event) : bool :=
  match e with EvNewOpenAi _ | EvNewOllamaAi _ => true | _ => false end.

Definition is_exec_prompt (e : event) : bool :=
  match e with EvExecPrompt _ _ _ => true | _ => false end.

(** Case analysis on one step of a body of [runDiffWithGoGit]: the case in
    which the step fails ends the body and is closed by [tac]. *)
Ltac gogit_step t tac :=
  destruct t eqn:?; body_step; try solve [tac].

(** ** Unfolding the package's functions *)

Lemma runDiffOnCli_unfold (w : World) (config : Config) :
  runDiffOnCli w config =
  (match exec.RunErr (cmd_Run w (diffCommand config)) with
   | Some err => ("", Some err)
   | None => (exec.Stdout (cmd_Run w (diffCommand config)), None)
   end,
   [EvRun (diffCommand config)]).
Proof.
  unfold runDiffOnCli, diffCommand.
  destruct (String.eqb (DestinationRef config) ""); cbn;
    match goal with |- context [exec.RunErr ?d] => destruct (exec.RunErr d) end;
    reflexivity.
Qed.

Lemma runDiffOnCli_ok_inv (w : World) (config : Config) (out : string) :
  fst (runDiffOnCli w config) = (out, None) ->
  exec.RunErr (cmd_Run w (diffCommand config)) = None /\
  out = exec.Stdout (cmd_Run w (diffCommand config)).
Proof.
  rewrite runDiffOnCli_unfold. cbn [fst].
  destruct (exec.RunErr (cmd_Run w (diffCommand config))); intros H.
  - discriminate H.
  - injection H as <-. split; reflexivity.
Qed.

(** [Do] when the diff command fails. *)
Lemma Do_diff_failed (w : World) (promptType : PromptType) (config : Config) (err : error) :
  exec.RunErr (cmd_Run w (diffCommand config)) = Some err ->
  Do w promptType config = (("", Some err), [EvRun (diffCommand config)]).
Proof.
  intros H. unfold Do. rewrite runDiffOnCli_unfold, H. reflexivity.
Qed.

(** [Do] when the diff command succeeds: what is left is the choice of the
    backend and the call to it. *)
Lemma Do_diff_ok (w : World) (promptType : PromptType) (config : Config) :
  exec.RunErr (cmd_Run w (diffCommand config)) = None ->
  let userPrompt := exec.Stdout (cmd_Run w (diffCommand config)) in
  let systemPrompt := getPrompt promptType in
  let c := modelConfigOf config in
  let prefix := EvRun (diffCommand config) :: diagnostics systemPrompt userPrompt in
  let exec_on (runtime : models.Model) (construction : event) : IO string_err :=
    match models.ExecPrompt runtime context.Background systemPrompt userPrompt with
    | Ok response =>
        ((models.Content response, None),
         prefix ++ [construction; EvExecPrompt context.Background systemPrompt userPrompt;
                    EvPrintln "Model Response:"])
    | Err err =>
        (("", Some err),
         prefix ++ [construction; EvExecPrompt context.Background systemPrompt userPrompt])
    end in
  Do w promptType config =
  if String.eqb (Platform config) "openai" then
    exec_on (models_NewOpenAi w c) (EvNewOpenAi c)
  else if String.eqb (Platform config) "ollama" then
    match models_NewOllamaAi w c with
    | Ok runtime => exec_on runtime (EvNewOllamaAi c)
    | Err err => (("", Some err), prefix ++ [EvNewOllamaAi c])
    end
  else
    (("", Some (Errorf_unknown_platform (Platform config) ErrUnknownPlatform)), prefix).
Proof.
  intros H. cbv zeta. unfold Do. rewrite runDiffOnCli_unfold, H.
  fold (modelConfigOf config). cbn.
  destruct (String.eqb (Platform config) "openai").
  - cbn. destruct (models.ExecPrompt _ _ _ _); reflexivity.
  - destruct (String.eqb (Platform config) "ollama").
    + cbn. destruct (models_NewOllamaAi w (modelConfigOf config)); cbn; [|reflexivity].
      destruct (models.ExecPrompt _ _ _ _); reflexivity.
    + reflexivity.
Qed.

Lemma constructed_by_cases (w : World) (config : Config) (runtime : models.Model)
  (construction : event) :
  constructed_by w config runtime construction ->
  (String.eqb (Platform config) "openai" = true /\
   models_NewOpenAi w (modelConfigOf config) = runtime /\
   construction = EvNewOpenAi (modelConfigOf config)) \/
  (String.eqb (Platform config) "openai" = false /\
   String.eqb (Platform config) "ollama" = true /\
   models_NewOllamaAi w (modelConfigOf config) = Ok runtime /\
   construction = EvNewOllamaAi (modelConfigOf config)).
Proof.
  intros [(Hp & Hr & Hc) | (Hp & Hr & Hc)]; rewrite Hp; [left | right];
    repeat split; assumption.
Qed.

(** Every call of [Do] is one of its five runs. *)
Lemma Do_runs (w : World) (promptType : PromptType) (config : Config) :
  Do_run w promptType config (Do w promptType config).
Proof.
  destruct (exec.RunErr (cmd_Run w (diffCommand config))) as [err|] eqn:Hrun.
  - rewrite (Do_diff_failed w promptType config Hrun). apply run_diff_failed. exact Hrun.
  - rewrite (Do_diff_ok w promptType config Hrun). cbv zeta.
    destruct (String.eqb_spec (Platform config) "openai") as [Hp | Hp].
    + destruct (models.ExecPrompt _ _ _ _) as [response | err] eqn:Hexec.
      * apply (@run_answered w promptType config (models_NewOpenAi w (modelConfigOf config)));
          [exact Hrun | left; repeat split; assumption | exact Hexec].
      * apply (@run_exec_failed w promptType config
                 (models_NewOpenAi w (modelConfigOf config)));
          [exact Hrun | left; repeat split; assumption | exact Hexec].
    + destruct (String.eqb_spec (Platform config) "ollama") as [Hq | Hq].
      * destruct (models_NewOllamaAi w (modelConfigOf config)) as [runtime | err] eqn:Hnew.
        -- destruct (models.ExecPrompt _ _ _ _) as [response | err] eqn:Hexec.
           ++ apply (@run_answered w promptType config runtime);
                [exact Hrun | right; repeat split; assumption | exact Hexec].
           ++ apply (@run_exec_failed w promptType config runtime);
                [exact Hrun | right; repeat split; assumption | exact Hexec].
        -- apply run_construction_failed; assumption.
      * apply run_unknown_platform; assumption.
Qed.

(** Every call to a backend that [Do] makes carries the instruction selected
    for the task type and the standard output of the diff command. *)
Lemma Do_ExecPrompt_arguments (w : World) (promptType : PromptType) (config : Config)
  (ctx : context.Context) (systemPrompt userPrompt : string) :
  In (EvExecPrompt ctx systemPrompt userPrompt) (snd (Do w promptType config)) ->
  ctx = context.Background /\
  systemPrompt = getPrompt promptType /\
  exec.RunErr (cmd_Run w (diffCommand config)) = None /\
  userPrompt = exec.Stdout (cmd_Run w (diffCommand config)).
Proof.
  destruct (Do_runs w promptType config) as
    [err Hrun | Hrun _ _ | err Hrun _ _ | runtime construction err Hrun Hnew _
     | runtime construction response Hrun Hnew _];
    try (destruct Hnew as [(_ & _ & ->) | (_ & _ & ->)]);
    unfold diagnostics; cbn [snd app In]; intros H;
    repeat (destruct H as [H | H]; try discriminate H); try contradiction;
    injection H as <- <- <-; repeat split; first [reflexivity | assumption].
Qed.

(** Every backend [Do] constructs is given the [ModelConfig] built from the
    configuration. *)
Lemma Do_constructor_arguments (w : World) (promptType : PromptType) (config : Config)
  (c : models.ModelConfig) :
  In (EvNewOpenAi c) (snd (Do w promptType config)) \/
  In (EvNewOllamaAi c) (snd (Do w promptType config)) ->
  c = modelConfigOf config.
Proof.
  destruct (Do_runs w promptType config) as
    [err Hrun | Hrun _ _ | err Hrun _ _ | runtime construction err Hrun Hnew _
     | runtime construction response Hrun Hnew _];
    try (destruct Hnew as [(_ & _ & ->) | (_ & _ & ->)]);
    unfold diagnostics; cbn [snd app In]; intros [H | H];
    repeat (destruct H as [H | H]; try discriminate H); try contradiction;
    injection H as <-; reflexivity.
Qed.

(** A run of the library variant without error returns the rendering of the
    changes from the destination tree to the source tree. *)
Lemma runDiffWithGoGit_ok (w : World) (config : Config)
  (repo : git.Repository) (srcTree destTree : object.Tree) :
  gogit_run w config repo srcTree destTree ->
  fst (runDiffWithGoGit w config)
  = (object.Changes_String (object.tree_changes destTree srcTree), None).
Proof.
  intros [dir srcRef srcCommit destRef destCommit
          Hwd Hopen Hsv Hsr Hsc Hst Hdr Hdc Hdt].
  unfold runDiffWithGoGit, Getwd, PlainOpenWithOptions, method.
  rewrite Hwd. body_step. rewrite Hopen. body_step. rewrite Hsv, Hsr. body_step.
  rewrite Hsc. body_step. rewrite Hst. body_step.
  unfold destination_reference in Hdr.
  destruct (String.eqb (DestinationRef config) ""); body_step.
  - rewrite Hdr. body_step. rewrite Hdc. body_step. rewrite Hdt. reflexivity.
  - destruct Hdr as [Hdv Hdr]. rewrite Hdv, Hdr. body_step. rewrite Hdc. body_step.
    rewrite Hdt. reflexivity.
Qed.

(** Conversely, a nil error means that no step has failed. *)
Lemma runDiffWithGoGit_ok_inv (w : World) (config : Config) (out : string) :
  fst (runDiffWithGoGit w config) = (out, None) ->
  exists repo srcTree destTree,
    gogit_run w config repo srcTree destTree /\
    out = object.Changes_String (object.tree_changes destTree srcTree).
Proof.
  unfold runDiffWithGoGit, Getwd, PlainOpenWithOptions, method.
  destruct (os_Getwd w) as [dir|] eqn:Hwd; body_step; [|discriminate].
  destruct (git_PlainOpenWithOptions w dir _) as [repo|] eqn:Hopen; body_step;
    [|discriminate].
  destruct (refname_Validate w (SourceRef config)) eqn:Hsv; body_step; [discriminate|].
  destruct (git.Reference repo (SourceRef config) true) as [srcRef|] eqn:Hsr; body_step;
    [|discriminate].
  destruct (git.CommitObject repo (plumbing.Hash_ srcRef)) as [srcCommit|] eqn:Hsc;
    body_step; [|discriminate].
  destruct (git.Commit_Tree repo srcCommit) as [srcTree|] eqn:Hst; body_step;
    [|discriminate].
  destruct (String.eqb (DestinationRef config) "") eqn:Hd; body_step.
  - destruct (git.Storer_Reference repo plumbing.HEAD) as [destRef|] eqn:Hdr; body_step;
      [|discriminate].
    destruct (git.CommitObject repo (plumbing.Hash_ destRef)) as [destCommit|] eqn:Hdc;
      body_step; [|discriminate].
    destruct (git.Commit_Tree repo destCommit) as [destTree|] eqn:Hdt; body_step;
      [|discriminate].
    intros H. injection H as <-. exists repo, srcTree, destTree. split; [|reflexivity].
    refine (@gogit_steps w config repo srcTree destTree dir srcRef srcCommit destRef
              destCommit Hwd Hopen Hsv Hsr Hsc Hst _ Hdc Hdt).
    unfold destination_reference. rewrite Hd. exact Hdr.
  - destruct (refname_Validate w (DestinationRef config)) eqn:Hdv; body_step;
      [discriminate|].
    destruct (git.Reference repo (DestinationRef config) true) as [destRef|] eqn:Hdr;
      body_step; [|discriminate].
    destruct (git.CommitObject repo (plumbing.Hash_ destRef)) as [destCommit|] eqn:Hdc;
      body_step; [|discriminate].
    destruct (git.Commit_Tree repo destCommit) as [destTree|] eqn:Hdt; body_step;
      [|discriminate].
    intros H. injection H as <-. exists repo, srcTree, destTree. split; [|reflexivity].
    refine (@gogit_steps w config repo srcTree destTree dir srcRef srcCommit destRef
              destCommit Hwd Hopen Hsv Hsr Hsc Hst _ Hdc Hdt).
    unfold destination_reference. rewrite Hd. split; assumption.
Qed.

(** The variant starts by asking for the working directory, whatever
    happens next. *)
Lemma runDiffWithGoGit_trace (w : World) (config : Config) :
  exists rest, snd (runDiffWithGoGit w config) = EvGetwd :: rest.
Proof.
  unfold runDiffWithGoGit, Getwd.
  destruct (os_Getwd w) as [dir|]; cbn; [|eexists; reflexivity].
  match goal with |- context [bind ?m ?k] => destruct (bind m k) as [[r | r] t] end;
    cbn; eexists; reflexivity.
Qed.

(** With [HEAD] stored as a hash reference (a detached head) and no
    destination reference, the library variant returns the changes from the
    head commit's tree to the source commit's tree. *)
Lemma runDiffWithGoGit_detached_head (w : World) (config : Config) (dir : string)
  (repo : git.Repository) (n : plumbing.ReferenceName) (h : plumbing.Hash)
  (srcRef : plumbing.Reference) (srcCommit headCommit : object.Commit)
  (srcTree headTree : object.Tree) :
  DestinationRef config = "" ->
  os_Getwd w = Ok dir ->
  git_PlainOpenWithOptions w dir {| git.DetectDotGit := true |} = Ok repo ->
  refname_Validate w (SourceRef config) = None ->
  git.Reference repo (SourceRef config) true = Ok srcRef ->
  git.CommitObject repo (plumbing.Hash_ srcRef) = Ok srcCommit ->
  git.Commit_Tree repo srcCommit = Ok srcTree ->
  git.Storer_Reference repo plumbing.HEAD = Ok (plumbing.NewHashReference n h) ->
  git.CommitObject repo h = Ok headCommit ->
  git.Commit_Tree repo headCommit = Ok headTree ->
  fst (runDiffWithGoGit w config)
  = (object.Changes_String (object.tree_changes headTree srcTree), None).
Proof.
  intros Hd Hwd Hopen Hsv Hsr Hsc Hst Hhead Hhc Hht.
  apply (@runDiffWithGoGit_ok w config repo srcTree headTree).
  refine (@gogit_steps w config repo srcTree headTree dir srcRef srcCommit
            (plumbing.NewHashReference n h) headCommit Hwd Hopen Hsv Hsr Hsc Hst _ Hhc Hht).
  unfold destination_reference. rewrite Hd. exact Hhead.
Qed.

(** With [HEAD] stored as a symbolic reference (a branch is checked out) and
    no destination reference, the library variant fails: it asks the object
    storage for the commit with the zero hash. *)
Lemma runDiffWithGoGit_symbolic_head (w : World) (config : Config) (dir : string)
  (repo : git.Repository) (n target : plumbing.ReferenceName)
  (srcRef : plumbing.Reference) (srcCommit : object.Commit) (srcTree : object.Tree) :
  DestinationRef config = "" ->
  os_Getwd w = Ok dir ->
  git_PlainOpenWithOptions w dir {| git.DetectDotGit := true |} = Ok repo ->
  refname_Validate w (SourceRef config) = None ->
  git.Reference repo (SourceRef config) true = Ok srcRef ->
  git.CommitObject repo (plumbing.Hash_ srcRef) = Ok srcCommit ->
  git.Commit_Tree repo srcCommit = Ok srcTree ->
  git.Storer_Reference repo plumbing.HEAD = Ok (plumbing.NewSymbolicReference n target) ->
  lookup plumbing.ZeroHash (git.commits repo) = None ->
  fst (runDiffWithGoGit w config) = ("", Some ErrObjectNotFound).
Proof.
  intros Hd Hwd Hopen Hsv Hsr Hsc Hst Hhead Hzero.
  unfold runDiffWithGoGit, Getwd, PlainOpenWithOptions, method.
  rewrite Hwd. body_step. rewrite Hopen. body_step. rewrite Hsv, Hsr. body_step.
  rewrite Hsc. body_step. rewrite Hst. body_step. rewrite Hd, Hhead.
  cbn. unfold git.CommitObject. rewrite Hzero. reflexivity.
Qed.

Lemma string_neq_of_eqb (a b : string) : String.eqb a b = false -> a <> b.
Proof. intros H. apply String.eqb_neq. exact H. Qed.

(** ** The two diff providers compared *)

(** C1 on a repository in which the source commit renames a file of the
    destination commit, its content unchanged: [topic] has [b.txt] where
    [main] has [a.txt].  Both references are given and both variants
    succeed.  The tool prints the rename with both paths; the library
    variant returns the [String] of the change list, which names each
    change by one path only, the one on the side of the destination.  So
    [b.txt], a changed path in the output of [runDiffOnCli], does not occur
    in the output of [runDiffWithGoGit]. *)
Theorem diff_variants_differ_on_rename :
  fst (runDiffOnCli scenario.renamed
         (scenario.config "refs/heads/topic" "refs/heads/main" "openai"))
  = (("diff --git a/b.txt b/a.txt" ++ LF ++ "similarity index 100%" ++ LF ++
      "rename from b.txt" ++ LF ++ "rename to a.txt" ++ LF)%string, None) /\
  fst (runDiffWithGoGit scenario.renamed
         (scenario.config "refs/heads/topic" "refs/heads/main" "openai"))
  = ("[<Action: Modify, Path: a.txt>]", None) /\
  occurs "b.txt"
    (fst (fst (runDiffOnCli scenario.renamed
                 (scenario.config "refs/heads/topic" "refs/heads/main" "openai")))) = true /\
  occurs "b.txt"
    (fst (fst (runDiffWithGoGit scenario.renamed
                 (scenario.config "refs/heads/topic" "refs/heads/main" "openai")))) = false.
Proof.
  repeat split; vm_compute; reflexivity.
Qed.

(** ** The instruction selector *)

(** C2, as the code has it: for every task-type value outside the
    enumeration, [getPrompt] returns the empty instruction; it reports no
    error (its result is a string and nothing else). *)
Theorem getPrompt_outside_enumeration (promptType : PromptType) :
  promptType <> PromptCommitMessage ->
  promptType <> PromptCodeReview ->
  promptType <> PromptTestCase ->
  getPrompt promptType = "".
Proof.
  intros H0 H1 H2. unfold getPrompt.
  destruct (Z.eqb_spec promptType PromptCommitMessage); [contradiction|].
  destruct (Z.eqb_spec promptType PromptCodeReview); [contradiction|].
  destruct (Z.eqb_spec promptType PromptTestCase); [contradiction|].
  reflexivity.
Qed.

Lemma getPrompt_outside_enumeration_witness :
  getPrompt 7%Z = "".
Proof.
  apply (@getPrompt_outside_enumeration 7%Z); unfold PromptCommitMessage,
    PromptCodeReview, PromptTestCase; lia.
Defined.

(** C2, as stated, fails: the value 3 is outside the enumeration, and the
    selector answers it with the empty instruction instead of failing; [Do]
    then goes on to the backend with that empty instruction and returns the
    backend's answer with a nil error. *)
Lemma getPrompt_no_InvalidTaskType :
  (3%Z <> PromptCommitMessage /\ 3%Z <> PromptCodeReview /\ 3%Z <> PromptTestCase) /\
  getPrompt 3%Z = "" /\
  fst (Do (scenario.on_branch scenario.treeX) 3%Z (scenario.config "feature" "main" "openai"))
  = ("feat: add util", None) /\
  In (EvExecPrompt context.Background ""
        (exec.Stdout (cmd_Run (scenario.on_branch scenario.treeX)
                        (diffCommand (scenario.config "feature" "main" "openai")))))
     (snd (Do (scenario.on_branch scenario.treeX) 3%Z
             (scenario.config "feature" "main" "openai"))).
Proof.
  split; [repeat split; discriminate|].
  split; [reflexivity|].
  split; [vm_compute; reflexivity|].
  vm_compute. do 6 right. left. reflexivity.
Qed.

(** C7: for each of the three task types commit-message, code-review and
    test-case, [getPrompt] returns a non-empty instruction, and the three
    instructions are pairwise distinct.  The selector is a function from
    [PromptType] to [string]: it takes no [World], leaves no trace and has
    no error component, so it is pure and cannot fail. *)
Theorem getPrompt_enumeration :
  getPrompt PromptCommitMessage <> "" /\
  getPrompt PromptCodeReview <> "" /\
  getPrompt PromptTestCase <> "" /\
  getPrompt PromptCommitMessage <> getPrompt PromptCodeReview /\
  getPrompt PromptCommitMessage <> getPrompt PromptTestCase /\
  getPrompt PromptCodeReview <> getPrompt PromptTestCase.
Proof.
  repeat split; apply string_neq_of_eqb; vm_compute; reflexivity.
Qed.

(** ** The external-tool variant *)

(** C9: [runDiffOnCli] runs the [git] [diff] command exactly once, with the
    source and the destination reference when the destination is not empty
    and with the source reference alone when it is empty; when the command
    succeeds it returns the captured standard output and a nil error. *)
Theorem runDiffOnCli_invocation (w : World) (config : Config) :
  (DestinationRef config <> "" ->
   snd (runDiffOnCli w config) =
   [EvRun (exec.Command "git" ["diff"; SourceRef config; DestinationRef config])]) /\
  (DestinationRef config = "" ->
   snd (runDiffOnCli w config) = [EvRun (exec.Command "git" ["diff"; SourceRef config])]) /\
  (forall cmd, snd (runDiffOnCli w config) = [EvRun cmd] ->
   exec.RunErr (cmd_Run w cmd) = None ->
   fst (runDiffOnCli w config) = (exec.Stdout (cmd_Run w cmd), None)).
Proof.
  rewrite runDiffOnCli_unfold. cbn [fst snd]. unfold diffCommand.
  repeat split.
  - intros H. apply String.eqb_neq in H. rewrite H. reflexivity.
  - intros H. rewrite H. reflexivity.
  - intros cmd Hcmd Hok. injection Hcmd as <-. unfold diffCommand in Hok |- *.
    rewrite Hok. reflexivity.
Qed.

Lemma runDiffOnCli_invocation_witness :
  snd (runDiffOnCli (scenario.on_branch scenario.treeX)
         (scenario.config "feature" "main" "openai"))
  = [EvRun (exec.Command "git" ["diff"; "feature"; "main"])] /\
  snd (runDiffOnCli (scenario.on_branch scenario.treeX)
         (scenario.config "feature" "" "openai"))
  = [EvRun (exec.Command "git" ["diff"; "feature"])] /\
  fst (runDiffOnCli (scenario.on_branch scenario.treeX)
         (scenario.config "feature" "main" "openai"))
  = (exec.Stdout (cmd_Run (scenario.on_branch scenario.treeX)
                    (exec.Command "git" ["diff"; "feature"; "main"])), None).
Proof.
  split; [|split].
  - apply (runDiffOnCli_invocation (scenario.on_branch scenario.treeX)
             (scenario.config "feature" "main" "openai")).
    discriminate.
  - apply (runDiffOnCli_invocation (scenario.on_branch scenario.treeX)
             (scenario.config "feature" "" "openai")).
    reflexivity.
  - apply (runDiffOnCli_invocation (scenario.on_branch scenario.treeX)
             (scenario.config "feature" "main" "openai")).
    + apply (runDiffOnCli_invocation (scenario.on_branch scenario.treeX)
               (scenario.config "feature" "main" "openai")).
      discriminate.
    + vm_compute. reflexivity.
Defined.

(** ** The direct-repository-read variant and the head of the repository *)

(** C4 on a repository whose [HEAD] points at a branch: [main] is checked
    out at commit [X] and [feature] is at commit [Y].  With [feature] as the
    source and no destination, [runDiffWithGoGit] returns
    [ErrObjectNotFound] and no diff.  The head commit is [X] (resolving
    [HEAD] gives the hash reference of [main]), and the changes between the
    trees of [X] and [Y] are what the same call returns once [HEAD] stores
    the hash of [X] directly. *)
Theorem runDiffWithGoGit_head_on_branch :
  fst (runDiffWithGoGit (scenario.on_branch scenario.treeX)
         (scenario.config "refs/heads/feature" "" "openai"))
  = ("", Some ErrObjectNotFound) /\
  git.Reference scenario.repo_on_branch plumbing.HEAD true
  = Ok (plumbing.NewHashReference "refs/heads/main" scenario.X) /\
  git.Storer_Reference scenario.repo_on_branch plumbing.HEAD
  = Ok (plumbing.NewSymbolicReference "HEAD" "refs/heads/main") /\
  fst (runDiffWithGoGit (scenario.detached scenario.treeX)
         (scenario.config "refs/heads/feature" "" "openai"))
  = (object.Changes_String (object.tree_changes scenario.treeX scenario.treeY), None) /\
  object.Changes_String (object.tree_changes scenario.treeX scenario.treeY)
  = "[<Action: Modify, Path: main.go>, <Action: Insert, Path: util.go>]".
Proof.
  split; [|split; [|split; [|split]]].
  - apply (@runDiffWithGoGit_symbolic_head (scenario.on_branch scenario.treeX)
             (scenario.config "refs/heads/feature" "" "openai") "/work"
             scenario.repo_on_branch "HEAD" "refs/heads/main"
             (plumbing.NewHashReference "refs/heads/feature" scenario.Y)
             {| object.TreeHash := "bbbb" |} scenario.treeY); reflexivity.
  - reflexivity.
  - reflexivity.
  - vm_compute. reflexivity.
  - vm_compute. reflexivity.
Qed.

(** ** The orchestrator *)

(** C3, as the code has it: when the platform identifier is neither
    "openai" nor "ollama", [Do] returns an error beside an empty content
    and no backend is constructed or called; when the diff command has
    succeeded, that error is the one that wraps [ErrUnknownPlatform];
    when it has failed, that error is the diff's error, since the diff
    runs before the platform is looked at. *)
Theorem Do_unknown_platform (w : World) (promptType : PromptType) (config : Config) :
  Platform config <> "openai" ->
  Platform config <> "ollama" ->
  Forall (fun e => backend_event e = false) (snd (Do w promptType config)) /\
  exists err,
    fst (Do w promptType config) = ("", Some err) /\
    (exec.RunErr (cmd_Run w (diffCommand config)) = None ->
     err = Errorf_unknown_platform (Platform config) ErrUnknownPlatform /\
     errors_Is err ErrUnknownPlatform = true) /\
    (forall e, exec.RunErr (cmd_Run w (diffCommand config)) = Some e -> err = e).
Proof.
  intros Hp Hq. apply String.eqb_neq in Hp. apply String.eqb_neq in Hq.
  destruct (exec.RunErr (cmd_Run w (diffCommand config))) as [err|] eqn:Hrun.
  - rewrite (Do_diff_failed w promptType config Hrun). split.
    + repeat constructor.
    + exists err. split; [reflexivity|]. split; [discriminate|].
      intros e He. injection He as <-. reflexivity.
  - rewrite (Do_diff_ok w promptType config Hrun). cbv zeta. rewrite Hp, Hq. split.
    + repeat constructor.
    + eexists. split; [reflexivity|]. split; [|discriminate].
      intros _. split; reflexivity.
Qed.

Lemma Do_unknown_platform_witness :
  Forall (fun e => backend_event e = false)
    (snd (Do (scenario.on_branch scenario.treeX) PromptCommitMessage
            (scenario.config "feature" "" "bogus"))) /\
  exists err,
    fst (Do (scenario.on_branch scenario.treeX) PromptCommitMessage
           (scenario.config "feature" "" "bogus")) = ("", Some err) /\
    (exec.RunErr (cmd_Run (scenario.on_branch scenario.treeX)
                    (diffCommand (scenario.config "feature" "" "bogus"))) = None ->
     err = Errorf_unknown_platform (Platform (scenario.config "feature" "" "bogus"))
             ErrUnknownPlatform /\
     errors_Is err ErrUnknownPlatform = true) /\
    (forall e,
       exec.RunErr (cmd_Run (scenario.on_branch scenario.treeX)
                      (diffCommand (scenario.config "feature" "" "bogus"))) = Some e ->
       err = e).
Proof.
  apply (@Do_unknown_platform (scenario.on_branch scenario.treeX) PromptCommitMessage
           (scenario.config "feature" "" "bogus")); discriminate.
Defined.

(** C3, as stated, fails: with the platform "bogus" and a source reference
    that names nothing in the repository, the [git] command fails on the
    unknown revision, and the error [Do] returns is its exit status, which
    does not wrap [ErrUnknownPlatform]. *)
Lemma Do_unknown_platform_after_failed_diff :
  Platform (scenario.config "gone" "" "bogus") <> "openai" /\
  Platform (scenario.config "gone" "" "bogus") <> "ollama" /\
  fst (Do (scenario.on_branch scenario.treeX) PromptCommitMessage
         (scenario.config "gone" "" "bogus")) = ("", Some (ExitError 128)) /\
  errors_Is (ExitError 128) ErrUnknownPlatform = false.
Proof.
  repeat split; discriminate.
Qed.

(** C5: whichever step of [Do] fails (the diff, the construction of the
    backend, or the backend's call), [Do] returns that step's error at once,
    beside an empty content string; the trace ends with the failed call, so
    no later step runs and no call is made twice.  A failed diff leaves the
    trace with the one [git] command: nothing is printed and no backend is
    constructed or invoked.  The later failures leave, besides the calls
    made, only the four diagnostic lines already printed. *)
Theorem Do_error_is_terminal (w : World) (promptType : PromptType) (config : Config) :
  let cmd := diffCommand config in
  let userPrompt := exec.Stdout (cmd_Run w cmd) in
  let systemPrompt := getPrompt promptType in
  let c := modelConfigOf config in
  let printed := diagnostics systemPrompt userPrompt in
  (* the diff fails *)
  (forall err, exec.RunErr (cmd_Run w cmd) = Some err ->
     Do w promptType config = (("", Some err), [EvRun cmd])) /\
  (* the construction of the backend fails *)
  (forall err, exec.RunErr (cmd_Run w cmd) = None ->
     Platform config = "ollama" -> models_NewOllamaAi w c = Err err ->
     Do w promptType config = (("", Some err), EvRun cmd :: printed ++ [EvNewOllamaAi c])) /\
  (* there is no backend to construct *)
  (exec.RunErr (cmd_Run w cmd) = None ->
     Platform config <> "openai" -> Platform config <> "ollama" ->
     Do w promptType config =
     (("", Some (Errorf_unknown_platform (Platform config) ErrUnknownPlatform)),
      EvRun cmd :: printed)) /\
  (* the call to the backend fails *)
  (forall runtime construction err, exec.RunErr (cmd_Run w cmd) = None ->
     constructed_by w config runtime construction ->
     models.ExecPrompt runtime context.Background systemPrompt userPrompt = Err err ->
     Do w promptType config =
     (("", Some err),
      EvRun cmd :: printed ++
      [construction; EvExecPrompt context.Background systemPrompt userPrompt])) /\
  (* in every case an error comes with the empty content *)
  (forall content err, fst (Do w promptType config) = (content, Some err) -> content = "").
Proof.
  cbv zeta. repeat split.
  - intros err Hrun. apply Do_diff_failed. exact Hrun.
  - intros err Hrun Hp Hnew. rewrite (Do_diff_ok w promptType config Hrun). cbv zeta.
    rewrite Hp, Hnew. reflexivity.
  - intros Hrun Hp Hq. rewrite (Do_diff_ok w promptType config Hrun). cbv zeta.
    apply String.eqb_neq in Hp. apply String.eqb_neq in Hq. rewrite Hp, Hq. reflexivity.
  - intros runtime construction err Hrun Hnew Hexec.
    rewrite (Do_diff_ok w promptType config Hrun). cbv zeta.
    destruct (constructed_by_cases Hnew) as [(Hp & Hr & ->) | (Hp & Hq & Hr & ->)].
    + rewrite Hp, Hr, Hexec. reflexivity.
    + rewrite Hp, Hq, Hr, Hexec. reflexivity.
  - intros content err.
    destruct (Do_runs w promptType config); cbn [fst]; intros Hres;
      first [discriminate Hres | injection Hres as <- _; reflexivity].
Qed.

Lemma Do_error_is_terminal_witness :
  (* outside a repository the diff fails *)
  Do scenario.outside_repository PromptCommitMessage (scenario.config "feature" "" "openai")
  = (("", Some (ExitError 129)), [EvRun (exec.Command "git" ["diff"; "feature"])]) /\
  (* the local server is down *)
  fst (Do scenario.backends_down PromptCodeReview (scenario.config "feature" "" "ollama"))
  = ("", Some (OtherError "connection refused")) /\
  (* the hosted API refuses the call *)
  fst (Do scenario.backends_down PromptTestCase (scenario.config "feature" "" "openai"))
  = ("", Some (OtherError "401 Unauthorized")).
Proof.
  split; [|split].
  - apply (Do_error_is_terminal scenario.outside_repository PromptCommitMessage
             (scenario.config "feature" "" "openai")).
    reflexivity.
  - destruct (Do_error_is_terminal scenario.backends_down PromptCodeReview
                (scenario.config "feature" "" "ollama")) as (_ & Hnew & _).
    rewrite (Hnew (OtherError "connection refused")); reflexivity.
  - destruct (Do_error_is_terminal scenario.backends_down PromptTestCase
                (scenario.config "feature" "" "openai")) as (_ & _ & _ & Hexec & _).
    rewrite (Hexec (scenario.failing (OtherError "401 Unauthorized"))
               (EvNewOpenAi (modelConfigOf (scenario.config "feature" "" "openai")))
               (OtherError "401 Unauthorized")).
    + reflexivity.
    + reflexivity.
    + left. repeat split.
    + reflexivity.
Defined.

(** C6, as the code has it: [Do] receives no context from its caller; every
    call of [ExecPrompt] it makes is under [context.Background()], which has
    no deadline and cannot be cancelled.  What the caller can bound is the
    request timeout of the configuration, which reaches the backend's
    constructor unchanged in the [ModelConfig]. *)
Theorem Do_ExecPrompt_context (w : World) (promptType : PromptType) (config : Config) :
  (forall ctx systemPrompt userPrompt,
     In (EvExecPrompt ctx systemPrompt userPrompt) (snd (Do w promptType config)) ->
     ctx = context.Background /\ context.cancellable ctx = false) /\
  (forall c,
     In (EvNewOpenAi c) (snd (Do w promptType config)) \/
     In (EvNewOllamaAi c) (snd (Do w promptType config)) ->
     models.PromptRequestTimeoutSeconds c = PromptRequestTimeoutSeconds config).
Proof.
  split.
  - intros ctx systemPrompt userPrompt H.
    destruct (Do_ExecPrompt_arguments _ _ _ _ _ _ H) as (-> & _). split; reflexivity.
  - intros c H. rewrite (Do_constructor_arguments _ _ _ _ H). reflexivity.
Qed.

Lemma Do_ExecPrompt_context_witness :
  (context.Background = context.Background /\
   context.cancellable context.Background = false) /\
  models.PromptRequestTimeoutSeconds
    (modelConfigOf (scenario.config "feature" "" "openai")) = 60%Z.
Proof.
  split.
  - apply (Do_ExecPrompt_context (scenario.on_branch scenario.treeX) PromptCommitMessage
             (scenario.config "feature" "" "openai"))
      with (systemPrompt := getPrompt PromptCommitMessage)
           (userPrompt := exec.Stdout
                            (cmd_Run (scenario.on_branch scenario.treeX)
                               (diffCommand (scenario.config "feature" "" "openai")))).
    vm_compute. do 6 right. left. reflexivity.
  - apply (Do_ExecPrompt_context (scenario.on_branch scenario.treeX) PromptCommitMessage
             (scenario.config "feature" "" "openai")).
    left. vm_compute. do 5 right. left. reflexivity.
Defined.

(** C6, as stated, fails: it is not the case that every [ExecPrompt] call of
    [Do] runs under a context that its caller can cancel or bound.  In the
    scenario the call is made under [context.Background()]. *)
Lemma Do_context_not_from_caller :
  ~ (forall (w : World) (promptType : PromptType) (config : Config)
       (ctx : context.Context) (systemPrompt userPrompt : string),
       In (EvExecPrompt ctx systemPrompt userPrompt) (snd (Do w promptType config)) ->
       context.cancellable ctx = true).
Proof.
  intros H.
  specialize (H (scenario.on_branch scenario.treeX) PromptCommitMessage
                (scenario.config "feature" "" "openai")
                context.Background (getPrompt PromptCommitMessage)
                (exec.Stdout (cmd_Run (scenario.on_branch scenario.treeX)
                                (diffCommand (scenario.config "feature" "" "openai"))))).
  assert (Hin : In (EvExecPrompt context.Background (getPrompt PromptCommitMessage)
                      (exec.Stdout (cmd_Run (scenario.on_branch scenario.treeX)
                                      (diffCommand (scenario.config "feature" "" "openai")))))
                   (snd (Do (scenario.on_branch scenario.treeX) PromptCommitMessage
                           (scenario.config "feature" "" "openai")))).
  { vm_compute. do 6 right. left. reflexivity. }
  specialize (H Hin). discriminate H.
Qed.

(** C8: when the diff succeeds, the backend is constructed and its call
    returns a response, [Do] returns that response's content unchanged,
    with a nil error. *)
Theorem Do_returns_content (w : World) (promptType : PromptType) (config : Config)
  (userPrompt : string) (runtime : models.Model) (response : models.ModelResponse) :
  fst (runDiffOnCli w config) = (userPrompt, None) ->
  constructed w config runtime ->
  models.ExecPrompt runtime context.Background (getPrompt promptType) userPrompt
  = Ok response ->
  fst (Do w promptType config) = (models.Content response, None).
Proof.
  intros Hdiff [construction Hnew] Hexec.
  destruct (runDiffOnCli_ok_inv w config Hdiff) as [Hrun ->].
  rewrite (Do_diff_ok w promptType config Hrun). cbv zeta.
  destruct (constructed_by_cases Hnew) as [(Hp & Hr & _) | (Hp & Hq & Hr & _)].
  - rewrite Hp, Hr, Hexec. reflexivity.
  - rewrite Hp, Hq, Hr, Hexec. reflexivity.
Qed.

Lemma Do_returns_content_witness :
  fst (Do (scenario.on_branch scenario.treeX) PromptCommitMessage
         (scenario.config "feature" "" "openai"))
  = ("feat: add util", None).
Proof.
  apply (@Do_returns_content (scenario.on_branch scenario.treeX) PromptCommitMessage
           (scenario.config "feature" "" "openai")
           (exec.Stdout (cmd_Run (scenario.on_branch scenario.treeX)
                           (diffCommand (scenario.config "feature" "" "openai"))))
           (scenario.answering "feat: add util")
           {| models.Content := "feat: add util" |}).
  - vm_compute. reflexivity.
  - eexists. left. repeat split.
  - reflexivity.
Defined.




(** ** Further properties of the orchestrator *)

(** X1: every error [Do] returns is handed over unchanged from the step that
    failed: it is the error of the [git] command, or the error of the local
    backend's constructor, or the error of the backend's call; the only
    error [Do] makes itself is the one for an unknown platform. *)
Theorem Do_error_provenance (w : World) (promptType : PromptType) (config : Config)
  (content : string) (err : error) :
  fst (Do w promptType config) = (content, Some err) ->
  exec.RunErr (cmd_Run w (diffCommand config)) = Some err \/
  (exec.RunErr (cmd_Run w (diffCommand config)) = None /\
   ((Platform config <> "openai" /\ Platform config <> "ollama" /\
     err = Errorf_unknown_platform (Platform config) ErrUnknownPlatform) \/
    (Platform config = "ollama" /\ models_NewOllamaAi w (modelConfigOf config) = Err err) \/
    (exists runtime, constructed w config runtime /\
       models.ExecPrompt runtime context.Background (getPrompt promptType)
         (exec.Stdout (cmd_Run w (diffCommand config))) = Err err))).
Proof.
  destruct (Do_runs w promptType config) as
    [err' Hrun | Hrun Hp Hq | err' Hrun Hp Hnew | runtime construction err' Hrun Hnew Hexec
     | runtime construction response Hrun Hnew Hexec];
    cbn [fst]; intros Hres; try discriminate Hres; injection Hres as _ <-.
  - left. exact Hrun.
  - right. split; [exact Hrun|]. left. repeat split; assumption.
  - right. split; [exact Hrun|]. right. left. split; assumption.
  - right. split; [exact Hrun|]. right. right. exists runtime. split; [|exact Hexec].
    exists construction. exact Hnew.
Qed.

Lemma Do_error_provenance_witness :
  exec.RunErr (cmd_Run scenario.outside_repository
                 (diffCommand (scenario.config "feature" "" "openai")))
  = Some (ExitError 129) \/
  (exec.RunErr (cmd_Run scenario.outside_repository
                  (diffCommand (scenario.config "feature" "" "openai"))) = None /\
   ((Platform (scenario.config "feature" "" "openai") <> "openai" /\
     Platform (scenario.config "feature" "" "openai") <> "ollama" /\
     ExitError 129 = Errorf_unknown_platform (Platform (scenario.config "feature" "" "openai"))
                       ErrUnknownPlatform) \/
    (Platform (scenario.config "feature" "" "openai") = "ollama" /\
     models_NewOllamaAi scenario.outside_repository
       (modelConfigOf (scenario.config "feature" "" "openai")) = Err (ExitError 129)) \/
    (exists runtime,
       constructed scenario.outside_repository (scenario.config "feature" "" "openai")
         runtime /\
       models.ExecPrompt runtime context.Background (getPrompt PromptCommitMessage)
         (exec.Stdout (cmd_Run scenario.outside_repository
                         (diffCommand (scenario.config "feature" "" "openai"))))
       = Err (ExitError 129)))).
Proof.
  apply (@Do_error_provenance scenario.outside_repository PromptCommitMessage
           (scenario.config "feature" "" "openai") "" (ExitError 129)).
  reflexivity.
Defined.

(** X2: a nil error from [Do] means that every step has succeeded: the
    [git] command ran without error, the platform was one of the two known
    ones and its backend was constructed, and the content returned is the
    content of the response to the one call made with the selected
    instruction and the command's standard output. *)
Theorem Do_success_inversion (w : World) (promptType : PromptType) (config : Config)
  (content : string) :
  fst (Do w promptType config) = (content, None) ->
  exec.RunErr (cmd_Run w (diffCommand config)) = None /\
  exists runtime response,
    constructed w config runtime /\
    models.ExecPrompt runtime context.Background (getPrompt promptType)
      (exec.Stdout (cmd_Run w (diffCommand config))) = Ok response /\
    content = models.Content response.
Proof.
  destruct (Do_runs w promptType config) as
    [err' Hrun | Hrun Hp Hq | err' Hrun Hp Hnew | runtime construction err' Hrun Hnew Hexec
     | runtime construction response Hrun Hnew Hexec];
    cbn [fst]; intros Hres; try discriminate Hres; injection Hres as <-.
  split; [exact Hrun|]. exists runtime, response. split; [|split].
  - exists construction. exact Hnew.
  - exact Hexec.
  - reflexivity.
Qed.

Lemma Do_success_inversion_witness :
  exec.RunErr (cmd_Run (scenario.on_branch scenario.treeX)
                 (diffCommand (scenario.config "feature" "main" "ollama"))) = None /\
  exists runtime response,
    constructed (scenario.on_branch scenario.treeX)
      (scenario.config "feature" "main" "ollama") runtime /\
    models.ExecPrompt runtime context.Background (getPrompt PromptCodeReview)
      (exec.Stdout (cmd_Run (scenario.on_branch scenario.treeX)
                      (diffCommand (scenario.config "feature" "main" "ollama"))))
    = Ok response /\
    "feat: add util" = models.Content response.
Proof.
  apply (@Do_success_inversion (scenario.on_branch scenario.treeX) PromptCodeReview
           (scenario.config "feature" "main" "ollama") "feat: add util").
  vm_compute. reflexivity.
Defined.

(** X3: what [Do] prints.  Nothing when the diff fails.  Otherwise the two
    prompts under their headings, the whole diff included, before the
    platform is even looked at; and the heading "Model Response:" exactly
    when [Do] returns a nil error.  The response's content is never
    printed by [Do]. *)
Theorem Do_printed_lines (w : World) (promptType : PromptType) (config : Config) :
  printed_lines (snd (Do w promptType config)) =
  match exec.RunErr (cmd_Run w (diffCommand config)) with
  | Some _ => []
  | None =>
      ["System Prompt:"; getPrompt promptType;
       "User Prompt:"; exec.Stdout (cmd_Run w (diffCommand config))] ++
      match snd (fst (Do w promptType config)) with
      | None => ["Model Response:"]
      | Some _ => []
      end
  end.
Proof.
  destruct (Do_runs w promptType config) as
    [err' Hrun | Hrun Hp Hq | err' Hrun Hp Hnew | runtime construction err' Hrun Hnew Hexec
     | runtime construction response Hrun Hnew Hexec];
    try (destruct Hnew as [(_ & _ & ->) | (_ & _ & ->)]);
    rewrite Hrun; reflexivity.
Qed.

(** X4: [Do] does not look at the diff it has obtained: when the command
    succeeds with an empty standard output (nothing has changed), the
    backend is still constructed and called, with an empty user prompt. *)
Theorem Do_sends_empty_diff (w : World) (promptType : PromptType) (config : Config)
  (runtime : models.Model) :
  exec.RunErr (cmd_Run w (diffCommand config)) = None ->
  exec.Stdout (cmd_Run w (diffCommand config)) = "" ->
  constructed w config runtime ->
  In (EvExecPrompt context.Background (getPrompt promptType) "")
     (snd (Do w promptType config)).
Proof.
  intros Hrun Hout [construction Hnew].
  rewrite (Do_diff_ok w promptType config Hrun). cbv zeta. rewrite Hout.
  destruct (constructed_by_cases Hnew) as [(Hp & Hr & _) | (Hp & Hq & Hr & _)].
  - rewrite Hp, Hr. destruct (models.ExecPrompt runtime _ _ _); cbn; tauto.
  - rewrite Hp, Hq, Hr. destruct (models.ExecPrompt runtime _ _ _); cbn; tauto.
Qed.

Lemma Do_sends_empty_diff_witness :
  In (EvExecPrompt context.Background (getPrompt PromptCommitMessage) "")
     (snd (Do (scenario.on_branch scenario.treeX) PromptCommitMessage
             (scenario.config "main" "" "openai"))).
Proof.
  apply (@Do_sends_empty_diff (scenario.on_branch scenario.treeX) PromptCommitMessage
           (scenario.config "main" "" "openai") (scenario.answering "feat: add util")).
  - reflexivity.
  - reflexivity.
  - eexists. left. repeat split.
Defined.

(** X5: the backend's constructor receives the five backend fields of the
    configuration, each unchanged; the two references are not part of what
    it receives. *)
Theorem Do_constructor_receives_config (w : World) (promptType : PromptType)
  (config : Config) (c : models.ModelConfig) :
  In (EvNewOpenAi c) (snd (Do w promptType config)) \/
  In (EvNewOllamaAi c) (snd (Do w promptType config)) ->
  models.PlatformApiKey c = PlatformApiKey config /\
  models.Platform c = Platform config /\
  models.Model_ c = Model config /\
  models.PromptMaxTokens c = PromptMaxTokens config /\
  models.PromptRequestTimeoutSeconds c = PromptRequestTimeoutSeconds config.
Proof.
  intros H. rewrite (Do_constructor_arguments _ _ _ _ H). repeat split.
Qed.

Lemma Do_constructor_receives_config_witness :
  models.PlatformApiKey (modelConfigOf (scenario.config "feature" "" "ollama")) = "sk-test" /\
  models.Platform (modelConfigOf (scenario.config "feature" "" "ollama")) = "ollama" /\
  models.Model_ (modelConfigOf (scenario.config "feature" "" "ollama")) = "gpt-4o" /\
  models.PromptMaxTokens (modelConfigOf (scenario.config "feature" "" "ollama")) = 3500%Z /\
  models.PromptRequestTimeoutSeconds (modelConfigOf (scenario.config "feature" "" "ollama"))
  = 60%Z.
Proof.
  apply (@Do_constructor_receives_config (scenario.on_branch scenario.treeX)
           PromptCommitMessage (scenario.config "feature" "" "ollama")).
  right. vm_compute. do 5 right. left. reflexivity.
Defined.

(** X6: in every run of [Do], successful or not, one command is run, at
    most one backend is constructed and at most one prompt is executed; a
    prompt is executed only on a backend constructed in the same run. *)
Theorem Do_call_counts (w : World) (promptType : PromptType) (config : Config) :
  length (filter is_run (snd (Do w promptType config))) = 1 /\
  length (filter is_construction (snd (Do w promptType config))) <= 1 /\
  length (filter is_exec_prompt (snd (Do w promptType config)))
  <= length (filter is_construction (snd (Do w promptType config))).
Proof.
  destruct (Do_runs w promptType config) as
    [err' Hrun | Hrun Hp Hq | err' Hrun Hp Hnew | runtime construction err' Hrun Hnew Hexec
     | runtime construction response Hrun Hnew Hexec];
    try (destruct Hnew as [(_ & _ & ->) | (_ & _ & ->)]);
    cbn; repeat split; lia.
Qed.

(** ** Further properties of the diff providers *)

(** X7: of what the [git] command leaves behind, [runDiffOnCli] reads the
    returned error and, when that is nil, the standard output.  What the
    command writes to standard error never reaches the caller, and what a
    failing command has written to standard output is dropped. *)
Theorem runDiffOnCli_reads_error_and_stdout (w1 w2 : World) (config : Config) :
  exec.RunErr (cmd_Run w1 (diffCommand config))
  = exec.RunErr (cmd_Run w2 (diffCommand config)) ->
  (exec.RunErr (cmd_Run w1 (diffCommand config)) = None ->
   exec.Stdout (cmd_Run w1 (diffCommand config))
   = exec.Stdout (cmd_Run w2 (diffCommand config))) ->
  runDiffOnCli w1 config = runDiffOnCli w2 config.
Proof.
  intros Herr Hout. rewrite !runDiffOnCli_unfold, <- Herr.
  destruct (exec.RunErr (cmd_Run w1 (diffCommand config))); [reflexivity|].
  rewrite (Hout eq_refl). reflexivity.
Qed.

Lemma runDiffOnCli_reads_error_and_stdout_witness :
  runDiffOnCli scenario.outside_repository (scenario.config "feature" "" "openai")
  = runDiffOnCli
      {| cmd_Run := fun _ =>
           {| exec.Stdout := "diff --git a/x b/x"; exec.Stderr := "error: interrupted";
              exec.RunErr := Some (ExitError 129) |};
         os_Getwd := Ok "/tmp";
         git_PlainOpenWithOptions := fun _ _ => Err ErrRepositoryNotExists;
         refname_Validate := scenario.validate;
         models_NewOpenAi := fun _ => scenario.answering "unreachable";
         models_NewOllamaAi := fun _ => Ok (scenario.answering "unreachable") |}
      (scenario.config "feature" "" "openai").
Proof.
  apply runDiffOnCli_reads_error_and_stdout.
  - reflexivity.
  - discriminate.
Defined.

(** Once the repository is open, the library variant only reads it, and
    returns the empty string beside an error. *)
Lemma runDiffWithGoGit_opened (w : World) (config : Config) (dir : string)
  (repo : git.Repository) :
  os_Getwd w = Ok dir ->
  git_PlainOpenWithOptions w dir {| git.DetectDotGit := true |} = Ok repo ->
  exists r reads,
    runDiffWithGoGit w config
    = (r, EvGetwd :: EvPlainOpen dir {| git.DetectDotGit := true |} :: reads) /\
    Forall (fun e => repository_read e = true) reads /\
    ((exists out, r = (out, None)) \/ (exists err, r = ("", Some err))).
Proof.
  intros Hwd Hopen. unfold runDiffWithGoGit, Getwd, PlainOpenWithOptions, method.
  rewrite Hwd. body_step. rewrite Hopen. body_step.
  gogit_step (refname_Validate w (SourceRef config))
    ltac:(eexists; eexists; split; [reflexivity | split;
            [repeat constructor | right; eexists; reflexivity]]).
  gogit_step (git.Reference repo (SourceRef config) true)
    ltac:(eexists; eexists; split; [reflexivity | split;
            [repeat constructor | right; eexists; reflexivity]]).
  match goal with |- context [git.CommitObject repo ?h] =>
    gogit_step (git.CommitObject repo h)
      ltac:(eexists; eexists; split; [reflexivity | split;
              [repeat constructor | right; eexists; reflexivity]]) end.
  match goal with |- context [git.Commit_Tree repo ?c] =>
    gogit_step (git.Commit_Tree repo c)
      ltac:(eexists; eexists; split; [reflexivity | split;
              [repeat constructor | right; eexists; reflexivity]]) end.
  destruct (String.eqb (DestinationRef config) ""); body_step.
  - gogit_step (git.Storer_Reference repo plumbing.HEAD)
      ltac:(eexists; eexists; split; [reflexivity | split;
              [repeat constructor | right; eexists; reflexivity]]).
    match goal with |- context [git.CommitObject repo (plumbing.Hash_ ?r)] =>
      gogit_step (git.CommitObject repo (plumbing.Hash_ r))
        ltac:(eexists; eexists; split; [reflexivity | split;
                [repeat constructor | right; eexists; reflexivity]]) end.
    match goal with |- context [match git.Commit_Tree repo ?c with _ => _ end] =>
      gogit_step (git.Commit_Tree repo c)
        ltac:(eexists; eexists; split; [reflexivity | split;
                [repeat constructor | right; eexists; reflexivity]]) end.
    eexists; eexists; split; [reflexivity | split;
      [repeat constructor | left; eexists; reflexivity]].
  - gogit_step (refname_Validate w (DestinationRef config))
      ltac:(eexists; eexists; split; [reflexivity | split;
              [repeat constructor | right; eexists; reflexivity]]).
    gogit_step (git.Reference repo (DestinationRef config) true)
      ltac:(eexists; eexists; split; [reflexivity | split;
              [repeat constructor | right; eexists; reflexivity]]).
    match goal with |- context [git.CommitObject repo (plumbing.Hash_ ?r)] =>
      gogit_step (git.CommitObject repo (plumbing.Hash_ r))
        ltac:(eexists; eexists; split; [reflexivity | split;
                [repeat constructor | right; eexists; reflexivity]]) end.
    match goal with |- context [match git.Commit_Tree repo ?c with _ => _ end] =>
      gogit_step (git.Commit_Tree repo c)
        ltac:(eexists; eexists; split; [reflexivity | split;
                [repeat constructor | right; eexists; reflexivity]]) end.
    eexists; eexists; split; [reflexivity | split;
      [repeat constructor | left; eexists; reflexivity]].
Qed.

(** X8: whatever happens, the library variant returns the empty string
    beside an error.  Outside the process it asks for the working
    directory and, if it gets one, opens the repository there, searching
    upward for the metadata directory; every call after that is a read of
    the opened repository (a reference, a commit, a tree, the diff of two
    trees).  It runs no command, prints nothing and calls no backend. *)
Theorem runDiffWithGoGit_effects (w : World) (config : Config) :
  (forall out err, fst (runDiffWithGoGit w config) = (out, Some err) -> out = "") /\
  ((exists err, os_Getwd w = Err err /\ snd (runDiffWithGoGit w config) = [EvGetwd]) \/
   (exists dir reads, os_Getwd w = Ok dir /\
      snd (runDiffWithGoGit w config)
      = EvGetwd :: EvPlainOpen dir {| git.DetectDotGit := true |} :: reads /\
      Forall (fun e => repository_read e = true) reads)) /\
  Forall (fun e => is_run e = false /\ backend_event e = false /\
                   match e with EvPrintln _ => False | _ => True end)
    (snd (runDiffWithGoGit w config)).
Proof.
  destruct (os_Getwd w) as [dir | err] eqn:Hwd.
  - destruct (git_PlainOpenWithOptions w dir {| git.DetectDotGit := true |})
      as [repo | err] eqn:Hopen.
    + destruct (runDiffWithGoGit_opened w config Hwd Hopen) as (r & reads & -> & Hreads & Hr).
      split; [|split].
      * cbn [fst]. intros out err H. destruct Hr as [[out' ->] | [err' ->]];
          [discriminate H | injection H as <- _; reflexivity].
      * right. exists dir, reads. repeat split. exact Hreads.
      * cbn [snd]. constructor; [repeat split|]. constructor; [repeat split|].
        revert Hreads. apply Forall_impl. intros e He.
        destruct e; try discriminate He; repeat split.
    + unfold runDiffWithGoGit, Getwd, PlainOpenWithOptions. rewrite Hwd. body_step.
      rewrite Hopen. body_step. split; [|split].
      * intros out err' H. injection H as <- _. reflexivity.
      * right. exists dir, []. repeat split. constructor.
      * repeat constructor.
  - unfold runDiffWithGoGit, Getwd. rewrite Hwd. body_step. split; [|split].
    + intros out err' H. injection H as <- _. reflexivity.
    + left. exists err. split; reflexivity.
    + repeat constructor.
Qed.

(** X9: the library variant reports the first step that fails, in the order
    of the source: the working directory, the repository, the source name,
    the source reference, and only then anything about the destination.  A
    malformed or missing source is reported whatever the destination is,
    and a malformed name is reported only once the repository is open. *)
Theorem runDiffWithGoGit_first_error (w : World) (config : Config) :
  (forall err, os_Getwd w = Err err ->
     runDiffWithGoGit w config = (("", Some err), [EvGetwd])) /\
  (forall dir err, os_Getwd w = Ok dir ->
     git_PlainOpenWithOptions w dir {| git.DetectDotGit := true |} = Err err ->
     fst (runDiffWithGoGit w config) = ("", Some err)) /\
  (forall dir repo err, os_Getwd w = Ok dir ->
     git_PlainOpenWithOptions w dir {| git.DetectDotGit := true |} = Ok repo ->
     refname_Validate w (SourceRef config) = Some err ->
     fst (runDiffWithGoGit w config) = ("", Some err)) /\
  (forall dir repo err, os_Getwd w = Ok dir ->
     git_PlainOpenWithOptions w dir {| git.DetectDotGit := true |} = Ok repo ->
     refname_Validate w (SourceRef config) = None ->
     git.Reference repo (SourceRef config) true = Err err ->
     fst (runDiffWithGoGit w config) = ("", Some err)) /\
  (forall dir repo srcRef srcCommit srcTree err, os_Getwd w = Ok dir ->
     git_PlainOpenWithOptions w dir {| git.DetectDotGit := true |} = Ok repo ->
     refname_Validate w (SourceRef config) = None ->
     git.Reference repo (SourceRef config) true = Ok srcRef ->
     git.CommitObject repo (plumbing.Hash_ srcRef) = Ok srcCommit ->
     git.Commit_Tree repo srcCommit = Ok srcTree ->
     DestinationRef config <> "" ->
     refname_Validate w (DestinationRef config) = Some err ->
     fst (runDiffWithGoGit w config) = ("", Some err)).
Proof.
  unfold runDiffWithGoGit, Getwd, PlainOpenWithOptions, method.
  split; [|split; [|split; [|split]]].
  - intros err Hwd. rewrite Hwd. reflexivity.
  - intros dir err Hwd Hopen. rewrite Hwd. body_step. rewrite Hopen. reflexivity.
  - intros dir repo err Hwd Hopen Hsv. rewrite Hwd. body_step. rewrite Hopen. body_step.
    rewrite Hsv. reflexivity.
  - intros dir repo err Hwd Hopen Hsv Hsr. rewrite Hwd. body_step. rewrite Hopen.
    body_step. rewrite Hsv, Hsr. reflexivity.
  - intros dir repo srcRef srcCommit srcTree err Hwd Hopen Hsv Hsr Hsc Hst Hd Hdv.
    apply String.eqb_neq in Hd.
    rewrite Hwd. body_step. rewrite Hopen. body_step. rewrite Hsv, Hsr. body_step.
    rewrite Hsc. body_step. rewrite Hst. body_step. rewrite Hd, Hdv. reflexivity.
Qed.

Lemma runDiffWithGoGit_first_error_witness :
  (* outside a repository, even with a malformed source name *)
  fst (runDiffWithGoGit scenario.outside_repository (scenario.config "../../etc" "" "openai"))
  = ("", Some ErrRepositoryNotExists) /\
  (* a malformed source name, whatever the destination *)
  fst (runDiffWithGoGit (scenario.on_branch scenario.treeX)
         (scenario.config "../../etc" "refs/heads/main" "openai"))
  = ("", Some ErrInvalidReferenceName) /\
  (* a source branch that does not exist *)
  fst (runDiffWithGoGit (scenario.on_branch scenario.treeX)
         (scenario.config "refs/heads/gone" "../../etc" "openai"))
  = ("", Some ErrReferenceNotFound).
Proof.
  split; [|split].
  - destruct (runDiffWithGoGit_first_error scenario.outside_repository
                (scenario.config "../../etc" "" "openai")) as (_ & Hopen & _).
    apply (Hopen "/tmp"); reflexivity.
  - destruct (runDiffWithGoGit_first_error (scenario.on_branch scenario.treeX)
                (scenario.config "../../etc" "refs/heads/main" "openai"))
      as (_ & _ & Hname & _).
    apply (Hname "/work" scenario.repo_on_branch); reflexivity.
  - destruct (runDiffWithGoGit_first_error (scenario.on_branch scenario.treeX)
                (scenario.config "refs/heads/gone" "../../etc" "openai"))
      as (_ & _ & _ & Href & _).
    apply (Href "/work" scenario.repo_on_branch); reflexivity.
Defined.

Lemma raw_changes_same (t : object.Tree) : object.raw_changes t t = [].
Proof.
  unfold object.raw_changes. induction (object.tree_paths t t) as [|path paths IH];
    [reflexivity|].
  cbn [flat_map]. rewrite IH. unfold object.change_at.
  destruct (lookup path t) as [x|]; [rewrite String.eqb_refl|]; reflexivity.
Qed.

(** A tree does not differ from itself. *)
Lemma tree_changes_same (t : object.Tree) : object.tree_changes t t = [].
Proof.
  unfold object.tree_changes. rewrite raw_changes_same. reflexivity.
Qed.

(** X11: given the same reference as source and as destination, the library
    variant, when it succeeds, returns the rendering of no change at all:
    the two brackets with nothing between them. *)
Theorem runDiffWithGoGit_same_reference (w : World) (config : Config) (out : string) :
  DestinationRef config = SourceRef config ->
  DestinationRef config <> "" ->
  fst (runDiffWithGoGit w config) = (out, None) ->
  out = "[]".
Proof.
  intros Hsame Hfull Hlib.
  destruct (runDiffWithGoGit_ok_inv _ _ Hlib) as (repo & srcTree & destTree & Hrun & ->).
  destruct Hrun as [dir srcRef srcCommit destRef destCommit
                    _ _ _ Hsr Hsc Hst Hdr Hdc Hdt].
  unfold destination_reference in Hdr.
  destruct (String.eqb_spec (DestinationRef config) "") as [Hempty | _]; [contradiction|].
  destruct Hdr as [_ Hdr]. rewrite Hsame, Hsr in Hdr. injection Hdr as <-.
  rewrite Hsc in Hdc. injection Hdc as <-. rewrite Hst in Hdt. injection Hdt as <-.
  rewrite tree_changes_same. reflexivity.
Qed.

Lemma runDiffWithGoGit_same_reference_witness :
  fst (fst (runDiffWithGoGit (scenario.on_branch scenario.worktree_dirty)
              (scenario.config "refs/heads/feature" "refs/heads/feature" "openai")))
  = "[]".
Proof.
  apply (@runDiffWithGoGit_same_reference (scenario.on_branch scenario.worktree_dirty)
           (scenario.config "refs/heads/feature" "refs/heads/feature" "openai")).
  - reflexivity.
  - discriminate.
  - vm_compute. reflexivity.
Defined.

(** X12: with no destination reference and [HEAD] stored as a symbolic
    reference (a branch is checked out), in a repository that keeps nothing
    under the zero hash, the library variant never succeeds, whatever the
    source is: it returns the empty string and an error. *)
Theorem runDiffWithGoGit_without_destination (w : World) (config : Config) (dir : string)
  (repo : git.Repository) (n target : plumbing.ReferenceName) :
  DestinationRef config = "" ->
  os_Getwd w = Ok dir ->
  git_PlainOpenWithOptions w dir {| git.DetectDotGit := true |} = Ok repo ->
  git.Storer_Reference repo plumbing.HEAD = Ok (plumbing.NewSymbolicReference n target) ->
  lookup plumbing.ZeroHash (git.commits repo) = None ->
  exists err, fst (runDiffWithGoGit w config) = ("", Some err).
Proof.
  intros Hd Hwd Hopen Hhead Hzero.
  destruct (runDiffWithGoGit_opened w config Hwd Hopen)
    as (r & reads & Heq & _ & [[out ->] | [err ->]]).
  - exfalso.
    assert (Hok : fst (runDiffWithGoGit w config) = (out, None)) by (rewrite Heq; reflexivity).
    destruct (runDiffWithGoGit_ok_inv _ _ Hok) as (repo' & srcTree & destTree & Hrun & _).
    destruct Hrun as [dir' srcRef srcCommit destRef destCommit
                      Hwd' Hopen' _ _ _ _ Hdr Hdc _].
    rewrite Hwd in Hwd'. injection Hwd' as <-.
    rewrite Hopen in Hopen'. injection Hopen' as <-.
    unfold destination_reference in Hdr. rewrite Hd in Hdr. cbn in Hdr.
    change (git.Storer_Reference repo plumbing.HEAD = Ok destRef) in Hdr.
    rewrite Hhead in Hdr. injection Hdr as <-.
    unfold git.CommitObject in Hdc. cbn [plumbing.Hash_] in Hdc.
    rewrite Hzero in Hdc. discriminate Hdc.
  - exists err. rewrite Heq. reflexivity.
Qed.

Lemma runDiffWithGoGit_without_destination_witness :
  exists err,
    fst (runDiffWithGoGit (scenario.on_branch scenario.treeX)
           (scenario.config "refs/heads/feature" "" "openai")) = ("", Some err).
Proof.
  apply (@runDiffWithGoGit_without_destination (scenario.on_branch scenario.treeX)
           (scenario.config "refs/heads/feature" "" "openai") "/work"
           scenario.repo_on_branch "HEAD" "refs/heads/main"); reflexivity.
Defined.

Lemma runDiffWithGoGit_effects_witness :
  "" = "" /\
  exists reads,
    snd (runDiffWithGoGit (scenario.on_branch scenario.treeX)
           (scenario.config "refs/heads/gone" "" "openai"))
    = EvGetwd :: EvPlainOpen "/work" {| git.DetectDotGit := true |} :: reads /\
    Forall (fun e => repository_read e = true) reads.
Proof.
  destruct (runDiffWithGoGit_effects (scenario.on_branch scenario.treeX)
              (scenario.config "refs/heads/gone" "" "openai")) as (Hempty & Htrace & _).
  split.
  - apply (Hempty "" ErrReferenceNotFound). reflexivity.
  - destruct Htrace as [(err & Hwd & _) | (dir & reads & Hwd & Htrace & Hreads)].
    + discriminate Hwd.
    + injection Hwd as <-. exists reads. split; assumption.
Defined.
